(** * User router and password hashing: a shallow embedding

    The development follows [src/lib/hash_password.ts] and the users router
    that travels with it (signup, profile update, avatar upload filter).

    Strings are [string] (sequences of bytes), [undefined] is [None],
    promises are identified with the value they resolve to, and the
    effects of a request handler are threaded through a state monad over
    the [World] the handler can touch. *)

From Stdlib Require Import String Ascii List Bool Arith Lia.
From ExtLib Require Import Structures.Monad Structures.MonadState.
From ExtLib Require Import Data.Monads.StateMonad.
Import ListNotations.
Import MonadNotation.
Local Open Scope string_scope.
Local Open Scope monad_scope.

(** ** The fragments of the JavaScript runtime the code relies on *)

Module Js.

(** [s.split(sep)] for a one-character separator: the pieces between the
    occurrences of [sep], in order; never the empty array. *)
Fixpoint split (sep : ascii) (s : string) : list string :=
  match s with
  | EmptyString => [EmptyString]
  | String c rest =>
      if Ascii.eqb c sep then EmptyString :: split sep rest
      else match split sep rest with
           | [] => [String c EmptyString]
           | piece :: pieces => String c piece :: pieces
           end
  end.

(** Number of occurrences of a character. *)
Fixpoint occurrences (c : ascii) (s : string) : nat :=
  match s with
  | EmptyString => 0
  | String d rest => (if Ascii.eqb d c then 1 else 0) + occurrences c rest
  end.

(** [!v] for [v : string | undefined]: only a non-empty string is truthy. *)
Definition falsy (v : option string) : bool :=
  match v with
  | Some (String _ _) => false
  | _ => true
  end.

(** [arr.includes(x)] on an array of strings. *)
Definition includes (arr : list string) (x : string) : bool :=
  existsb (String.eqb x) arr.

(** Truthiness of [v : object | undefined]. *)
Definition present {A : Type} (v : option A) : bool :=
  match v with
  | Some _ => true
  | None => false
  end.

(** [`${v}`] for [v : string | undefined]. *)
Definition interpolate (v : option string) : string :=
  match v with
  | Some s => s
  | None => "undefined"
  end.

(** [s.replace(pattern, replacement)] with a string pattern: the first
    occurrence only. *)
Fixpoint replace (pattern replacement s : string) : string :=
  if String.prefix pattern s
  then replacement ++ substring (String.length pattern)
                                (String.length s - String.length pattern) s
  else match s with
       | EmptyString => EmptyString
       | String c rest => String c (replace pattern replacement rest)
       end.

(** [path.join] of plain segments. *)
Definition join (segments : list string) : string :=
  String.concat "/" segments.

(** [new Error(message)]. *)
Record Error : Type := mkError { message : string }.

End Js.

(** ** The upload filter *)

(** What multer knows of a file part before it is stored: the name the
    client gave the file, the media type the client declared, the bytes. *)
Record IncomingFile : Type := mkIncomingFile {
  originalname : string;
  mimetype : string;
  content : string
}.

Definition ACCEPTABLE_SUBTYPES : list string := ["png"; "jpeg"].

Definition isAcceptableSubtype (subtype : string) : bool :=
  Js.includes ACCEPTABLE_SUBTYPES subtype.

(** The first and the second piece of [fullMimeType.split("/")], as the
    destructuring [const [mediaType, mediaSubtype] = ...] binds them. *)
Definition mediaTypeOf (fullMimeType : string) : option string :=
  nth_error (Js.split "/" fullMimeType) 0.

Definition mediaSubtypeOf (fullMimeType : string) : option string :=
  nth_error (Js.split "/" fullMimeType) 1.

Definition toAcceptableImageMediaType (fullMimeType : string)
  : option (string * string) :=
  let mediaType := mediaTypeOf fullMimeType in
  let mediaSubtype := mediaSubtypeOf fullMimeType in
  if Js.falsy mediaType || Js.falsy mediaSubtype then None
  else match mediaType, mediaSubtype with
       | Some ty, Some subtype =>
           if negb (ty =? "image") then None
           else if negb (isAcceptableSubtype subtype) then None
           else Some ("image", subtype)
       | _, _ => None
       end.

(** The two ways the filter calls back: [cb(new Error(..))] or
    [cb(null, true)]. *)
Inductive FilterResult : Type :=
| Reject (err : Js.Error)
| Accept.

Definition onlyImagesMessage : string :=
  "Only image files in png or jpeg format can be uploaded".

(** [fileFilter]: of its arguments [(req, file, cb)] only [file.mimetype]
    is read, and [cb] is called once. *)
Definition fileFilter (file : IncomingFile) : FilterResult :=
  match toAcceptableImageMediaType (mimetype file) with
  | None => Reject (Js.mkError onlyImagesMessage)
  | Some _ => Accept
  end.


(** ** Values that travel with a request *)

(** A text field of [req.body]: absent ([undefined]) or a string. *)
Definition field : Type := option string.

(** What multer's disk storage reports of a stored file ([req.file]). *)
Record StoredFile : Type := mkStoredFile {
  stored_originalname : string;
  stored_mimetype : string;
  destination : string;
  filename : string;
  path : string
}.

(** The values a validation error can carry. *)
Inductive Value : Type :=
| undefined
| text (s : string)
| fileInfo (f : StoredFile).

Definition ofField (v : field) : Value :=
  match v with
  | None => undefined
  | Some s => text s
  end.

Definition ofFile (f : option StoredFile) : Value :=
  match f with
  | None => undefined
  | Some info => fileInfo info
  end.

(** The error record of express-validator, which [uploadHandler] builds by
    hand for a failed upload. *)
Record ValidationError : Type := mkValidationError {
  param : string;
  msg : string;
  location : string;
  value : Value
}.

(** The request as it reaches the two endpoints.  [parts] are the file
    parts of a multipart body by form field; [body_*] are the text fields;
    the two flags say whether [req.authentication] and [req.dialogMessage]
    are there. *)
Record Request : Type := mkRequest {
  params_userId : string;
  body_name : field;
  body_email : field;
  body_password : field;
  parts : string -> option IncomingFile;
  hasAuthentication : bool;
  hasDialogMessage : bool
}.

(** What the upload middleware adds to the request: [req.file] and
    [req.uploadError], both absent on the request as it arrives. *)
Record Upload : Type := mkUpload {
  file : option StoredFile;
  uploadError : option ValidationError
}.

(** The [user] object handed to a form template. *)
Inductive FormUser : Type :=
| newUserForm (name email password : field)
| editUserForm (id : string) (name email : field).

(** How a request ends: [res.render(view, {user, errors})],
    [res.redirect(url)], or [next(err)], which hands the error to the
    application's error handler. *)
Inductive Response : Type :=
| render (view : string) (user : FormUser) (errors : list ValidationError)
| redirect (url : string)
| next (err : Js.Error).

(** The properties of a [User] object this router reads or writes. *)
Record User (number : Type) : Type := mkUser {
  id : option number;
  name : field;
  email : field;
  password : string;
  imageName : string
}.

Arguments mkUser {number} _ _ _ _ _.
Arguments id {number} _.
Arguments name {number} _.
Arguments email {number} _.
Arguments password {number} _.
Arguments imageName {number} _.

(** [Object.assign(user, {name, email})]. *)
Definition assignNameEmail {number : Type} (user : User number)
  (newName newEmail : field) : User number :=
  mkUser (id user) newName newEmail (password user) (imageName user).

(** [user.imageName = v]. *)
Definition set_imageName {number : Type} (v : string) (user : User number)
  : User number :=
  mkUser (id user) (name user) (email user) (password user) v.

(** Modelled from the spec: the credential hash of the bcrypt package, a
    dependency whose code is not among the sources.  The spec calls it
    "an opaque string produced by the hashing algorithm, self-describing
    (encodes algorithm identifier, cost factor, salt, and digest)"; these
    are the four things it encodes. *)
Record HashFields : Type := mkHashFields {
  algorithm : string;
  costFactor : nat;
  salt : string;
  digest : string
}.

(** The class [HashPassword]: its only field. *)
Record HashPassword : Type := mkHashPassword { saltRounds : nat }.

(** [new HashPassword()]. *)
Definition newHashPassword : HashPassword := mkHashPassword 10.

(** ** A multipart body, part by part

    [Request] above holds the text fields and the file parts side by side,
    which is how a body looks whose text fields come first and whose one
    file, if any, is sent as [image].  multer reads a body in the order it
    was sent and stops at the first file part it turns down; the
    definitions below follow that order. *)

(** One part of a multipart body: a text field, or a file sent under a
    form field. *)
Inductive Part : Type :=
| textPart (key value : string)
| filePart (fieldName : string) (upload : IncomingFile).

(** A profile update as it is sent. *)
Record MultipartRequest : Type := mkMultipartRequest {
  multipart_userId : string;
  multipart_parts : list Part;
  multipart_hasAuthentication : bool;
  multipart_hasDialogMessage : bool
}.

(** The text fields of a body, in order, and its file parts, in order. *)
Fixpoint textFields (sent : list Part) : list (string * string) :=
  match sent with
  | [] => []
  | textPart key value :: rest => (key, value) :: textFields rest
  | filePart _ _ :: rest => textFields rest
  end.

Fixpoint fileParts (sent : list Part) : list (string * IncomingFile) :=
  match sent with
  | [] => []
  | textPart _ _ :: rest => fileParts rest
  | filePart fieldName upload :: rest => (fieldName, upload) :: fileParts rest
  end.

(** The text fields that come before the first file part, and that file
    part with what follows it. *)
Fixpoint untilFile (sent : list Part)
  : list (string * string) * option (string * IncomingFile * list Part) :=
  match sent with
  | [] => ([], None)
  | textPart key value :: rest =>
      let (fields, stop) := untilFile rest in ((key, value) :: fields, stop)
  | filePart fieldName upload :: rest => ([], Some (fieldName, upload, rest))
  end.

(** [req.body[key]] once the text fields [fields] have been appended to
    [req.body].  Faithful for [plainFields]: field names without brackets
    that are sent once, and names and values below the sizes at which the
    parser cuts them (100 bytes, 1 MiB) and multer gives up.  A repeated
    or bracketed name makes an array or an object of the value. *)
Definition bodyField (key : string) (fields : list (string * string)) : field :=
  match List.find (fun sent => fst sent =? key) fields with
  | Some sent => Some (snd sent)
  | None => None
  end.

Definition plainFields (fields : list (string * string)) : Prop :=
  NoDup (List.map fst fields) /\
  Forall (fun sent =>
            Js.occurrences "[" (fst sent) = 0 /\
            String.length (fst sent) < 100 /\
            String.length (snd sent) < 1024 * 1024) fields.

(** The filter multer runs for [single(name)] on the first file part: a
    file under another field is an "Unexpected field"; a file under [name]
    goes to the [fileFilter] of the options. *)
Definition wrappedFileFilter (name fieldName : string) (upload : IncomingFile)
  : FilterResult :=
  if fieldName =? name then fileFilter upload
  else Reject (Js.mkError "Unexpected field").

(** The request the handler reads once the text fields [fields] are in
    [req.body]. *)
Definition asRequest (m : MultipartRequest) (fields : list (string * string))
  : Request :=
  mkRequest (multipart_userId m)
            (bodyField "name" fields) (bodyField "email" fields)
            (bodyField "password" fields)
            (fun name =>
               match fileParts (multipart_parts m) with
               | (fieldName, upload) :: _ =>
                   if fieldName =? name then Some upload else None
               | [] => None
               end)
            (multipart_hasAuthentication m) (multipart_hasDialogMessage m).

(** Reading a path from the disk, which lists the writes latest first: a
    later write to a path replaces what was there. *)
Definition readFile (p : string) (files : list (string * string))
  : option string :=
  match List.find (fun written => fst written =? p) files with
  | Some written => Some (snd written)
  | None => None
  end.

(** ** Sample collaborators

    Small stand-ins for the packages and modules the router imports
    (nanoid, bcrypt, the [User] model, the authentication middlewares), so
    that the model can be run on concrete requests. *)

Module Sample.

Definition Entropy : Type := nat.

(** [n] marks in a row. *)
Fixpoint tally (n : nat) : string :=
  match n with
  | 0 => EmptyString
  | S k => String "x" (tally k)
  end.

Definition nanoid (e : Entropy) : string * Entropy := ("id" ++ tally e, S e).

Definition genSalt (e : Entropy) : string * Entropy := ("na" ++ tally e, S e).

Definition digestOf (rounds : nat) (s data : string) : string :=
  tally rounds ++ s ++ data.

(** A length-prefixed text: as many marks as it has characters, a dollar
    sign, the text. *)
Definition encodeText (s : string) : string :=
  tally (String.length s) ++ String "$" s.

Fixpoint readTally (s : string) : option (nat * string) :=
  match s with
  | EmptyString => None
  | String c rest =>
      if Ascii.eqb c "$" then Some (0, rest)
      else if Ascii.eqb c "x"
           then match readTally rest with
                | Some (n, after) => Some (S n, after)
                | None => None
                end
           else None
  end.

Fixpoint readChars (n : nat) (s : string) : option (string * string) :=
  match n with
  | 0 => Some (EmptyString, s)
  | S k =>
      match s with
      | EmptyString => None
      | String c rest =>
          match readChars k rest with
          | Some (taken, after) => Some (String c taken, after)
          | None => None
          end
      end
  end.

Definition decodeText (s : string) : option (string * string) :=
  match readTally s with
  | Some (n, after) => readChars n after
  | None => None
  end.

Definition formatHash (f : HashFields) : string :=
  encodeText (algorithm f) ++ tally (costFactor f) ++ String "$"
    (encodeText (salt f) ++ encodeText (digest f)).

Definition parseHash (s : string) : option HashFields :=
  match decodeText s with
  | Some (alg, s1) =>
      match readTally s1 with
      | Some (rounds, s2) =>
          match decodeText s2 with
          | Some (na, s3) =>
              match decodeText s3 with
              | Some (dig, EmptyString) => Some (mkHashFields alg rounds na dig)
              | _ => None
              end
          | None => None
          end
      | None => None
      end
  | None => None
  end.

Definition number : Type := nat.

Definition Number (s : string) : number := String.length s.

Definition numberToString (n : number) : string := tally n.

Definition Db : Type := list (User number).

Definition hasId (n : number) (u : User number) : bool :=
  match id u with
  | Some m => Nat.eqb m n
  | None => false
  end.

Definition User_new (newName newEmail : field) (hash : string) : User number :=
  mkUser None newName newEmail hash "/image/users/default_user.jpg".

Definition User_find (n : number) (db : Db) : option (User number) :=
  List.find (hasId n) db.

Definition User_save (u : User number) (db : Db) : User number * Db :=
  let saved := mkUser (Some (List.length db)) (name u) (email u)
                      (password u) (imageName u) in
  (saved, saved :: db).

Definition User_update (u : User number) (db : Db) : Db :=
  List.map (fun v => match id u with
                     | Some n => if hasId n v then u else v
                     | None => v
                     end) db.

Definition sameField (a b : field) : bool :=
  match a, b with
  | Some x, Some y => String.eqb x y
  | None, None => true
  | _, _ => false
  end.

Definition isUniqueEmail (v : field) (db : Db) : option string :=
  if existsb (fun u => sameField (email u) v) db
  then Some "Email has already been taken"
  else None.

(** A guard that lets every request through. *)
Definition letThrough (req : Request) : option Response := None.

(** A stored user, a store that holds her, and three requests: a profile
    update that uploads a PDF, one that uploads nothing, and a signup with
    the name left empty.  [Number "id"] is her id. *)
Definition ann : User number :=
  mkUser (Some 2) (Some "Ann") (Some "ann@example.org") "stored hash"
         "/image/users/ann.png".

Definition users : Db := [ann].

Definition onlyImageField (part : IncomingFile) (fieldName : string)
  : option IncomingFile :=
  if fieldName =? "image" then Some part else None.

Definition noParts (fieldName : string) : option IncomingFile := None.

Definition pdfUpdate : Request :=
  mkRequest "id" (Some "Ann B.") (Some "ann.b@example.org") None
            (onlyImageField (mkIncomingFile "cv.pdf" "application/pdf" "%PDF"))
            true true.

Definition plainUpdate : Request :=
  mkRequest "id" (Some "Ann B.") (Some "ann.b@example.org") None
            noParts true true.

Definition pngUpdate : Request :=
  mkRequest "id" (Some "Ann B.") (Some "ann.b@example.org") None
            (onlyImageField (mkIncomingFile "me.png" "image/png" "PNG bytes"))
            true true.

Definition bobSignup : Request :=
  mkRequest "" (Some "Bob") (Some "bob@example.org") (Some "hunter2")
            noParts true true.

Definition blankSignup : Request :=
  mkRequest "" (Some "") (Some "bob@example.org") (Some "hunter2")
            noParts true true.

(** More requests: an update for a user nobody has stored, an update with
    an acceptable image and the name left empty, and a signup with an
    email that is taken. *)
Definition ghostUpdate : Request :=
  mkRequest "nobody" (Some "Ann B.") (Some "ann.b@example.org") None
            noParts true true.

Definition blankPngUpdate : Request :=
  mkRequest "id" (Some "") (Some "ann.b@example.org") None
            (onlyImageField (mkIncomingFile "me.png" "image/png" "PNG bytes"))
            true true.

Definition takenSignup : Request :=
  mkRequest "" (Some "Ann") (Some "ann@example.org") (Some "hunter2")
            noParts true true.


Definition png : IncomingFile := mkIncomingFile "me.png" "image/png" "PNG bytes".



Definition pngAsAvatar : MultipartRequest :=
  mkMultipartRequest "id"
    [textPart "name" "Ann B."; textPart "email" "ann.b@example.org";
     filePart "avatar" png]
    true true.

Definition pngLast : MultipartRequest :=
  mkMultipartRequest "id"
    [textPart "name" "Ann B."; textPart "email" "ann.b@example.org";
     filePart "image" png]
    true true.

(** Posts are their text; every post here is Ann's. *)
Definition Post : Type := string.

Definition User_all (db : Db) : list (User number) := db.

Definition User_posts (u : User number) (db : Db) : list Post :=
  ["first post"; "second post"].

Definition User_likedPosts (u : User number) (db : Db) : list Post :=
  ["second post"].

Definition Post_user (p : Post) (db : Db) : option (User number) :=
  User_find 2 db.

End Sample.

(** ** The application *)

Section Application.

(** *** Collaborators

    Everything below is imported by the sources and defined elsewhere. *)

(** The source of randomness, and the two packages that draw from it:
    [nanoid()] returns an identifier, bcrypt draws a salt for each hash. *)
Variable Entropy : Type.
Variable nanoid : Entropy -> string * Entropy.
Variable genSalt : Entropy -> string * Entropy.

(** Modelled from the spec: what the spec says of bcrypt's hashes without
    fixing it.  A "salted one-way function" of cost, salt and plaintext;
    the "algorithm identifier"; and the way a hash "encodes" its four
    fields as a string and is read back. *)
Variable digestOf : nat -> string -> string -> string.
Variable algorithmId : string.
Variable formatHash : HashFields -> string.
Variable parseHash : string -> option HashFields.

(** Modelled from the spec: a hash is "self-describing", so what was
    written into it is read back from it. *)
Hypothesis parse_format : forall f : HashFields, parseHash (formatHash f) = Some f.

(** JavaScript numbers, as far as user ids need them: [Number(s)] and the
    conversion a template literal applies. *)
Variable number : Type.
Variable Number : string -> number.
Variable numberToString : number -> string.

(** The [User] model over its store. *)
Variable Db : Type.
Variable User_new : field -> field -> string -> User number.
Variable User_find : number -> Db -> option (User number).
Variable User_save : User number -> Db -> User number * Db.
Variable User_update : User number -> Db -> Db.

(** The rest of the [User] model and the [Post] model, as the pages read
    them: [User.all()], [user.posts()], [user.likedPosts()], [post.user()]. *)
Variable Post : Type.
Variable User_all : Db -> list (User number).
Variable User_posts : User number -> Db -> list Post.
Variable User_likedPosts : User number -> Db -> list Post.
Variable Post_user : Post -> Db -> option (User number).

(** The middlewares of [@/middlewares]: a custom validator that answers
    with an error message or accepts, and guards that either answer the
    request themselves or pass it on as it is. *)
Variable isUniqueEmail : field -> Db -> option string.
Variable forbidAuthUser : Request -> option Response.
Variable ensureAuthUser : Request -> option Response.
Variable ensureCorrectUser : Request -> option Response.

(** *** The world a handler acts on *)

(** Calls that leave the process, in the order they were made (latest
    first). *)
Inductive Call : Type :=
| bcryptHash (data : string) (rounds : nat)
| userSave (u : User number)
| userUpdate (u : User number)
| login (u : User number)
| setMessage (message : string)
| consoleLog (line : string).

Record World : Type := mkWorld {
  db : Db;
  disk : list (string * string);
  entropy : Entropy;
  journal : list Call
}.

Definition set_db (d : Db) (w : World) : World :=
  mkWorld d (disk w) (entropy w) (journal w).

Definition set_disk (d : list (string * string)) (w : World) : World :=
  mkWorld (db w) d (entropy w) (journal w).

Definition set_entropy (e : Entropy) (w : World) : World :=
  mkWorld (db w) (disk w) e (journal w).

Definition set_journal (j : list Call) (w : World) : World :=
  mkWorld (db w) (disk w) (entropy w) j.

(** A handler computes over the world. *)
Local Abbreviation Handler := (state World).

Definition call (c : Call) : Handler unit :=
  w <- get ;; put (set_journal (c :: journal w) w).

Definition draw (source : Entropy -> string * Entropy) : Handler string :=
  w <- get ;;
  let (s, e) := source (entropy w) in
  put (set_entropy e w) ;;
  ret s.

(** The disk lists the writes, latest first; [readFile] reads a path as its
    latest write, so a second write to a path replaces the first. *)
Definition writeFile (p bytes : string) : Handler unit :=
  w <- get ;; put (set_disk ((p, bytes) :: disk w) w).

(** [obj?.method(..)]: nothing happens when the object is not there. *)
Definition whenPresent (present : bool) (action : Handler unit)
  : Handler unit :=
  if present then action else ret tt.

(** *** bcrypt *)

(** Modelled from the spec: the hash bcrypt computes for a plaintext under
    a cost and a salt.  The spec has the hash encode "algorithm
    identifier, cost factor, salt, and digest". *)
Definition hashWithSalt (data : string) (rounds : nat) (s : string)
  : string :=
  formatHash (mkHashFields algorithmId rounds s (digestOf rounds s data)).

(** Modelled from the spec: [bcrypt.hash(data, rounds)], which "must use a
    freshly generated random salt per call". *)
Definition bcrypt_hash (data : string) (rounds : nat) : Handler string :=
  s <- draw genSalt ;;
  call (bcryptHash data rounds) ;;
  ret (hashWithSalt data rounds s).

(** Modelled from the spec: [bcrypt.compare(data, hash)], which
    "recomputes the hash using the salt and cost embedded in hash and
    performs a constant-time-safe equality check against the stored
    digest" and "may fail (error) if hash is malformed/unparseable"
    ([None]). *)
Definition bcrypt_compare (data hash : string) : option bool :=
  match parseHash hash with
  | None => None
  | Some f => Some (digestOf (costFactor f) (salt f) data =? digest f)
  end.

(** *** HashPassword *)

Definition generate (self : HashPassword) (plainPassword : string)
  : Handler string :=
  bcrypt_hash plainPassword (saltRounds self).

Definition compare (self : HashPassword) (plainPassword hash : string)
  : option bool :=
  bcrypt_compare plainPassword hash.

(** *** The upload pipeline (multer) *)

Definition storage_destination : string :=
  Js.join ["public"; "image"; "users"].

(** [storage.filename]: neither [req] nor anything of [file] but its
    declared media type is read. *)
Definition storage_filename (req : Request) (file : IncomingFile)
  : Handler string :=
  unique <- draw nanoid ;;
  let outFileName :=
    unique ++ "." ++ Js.interpolate (nth_error (Js.split "/" (mimetype file)) 1)
  in
  ret outFileName.

(** [upload.single(name)]: the file part of field [name], if any, goes
    through [fileFilter]; a rejected part is dropped with the filter's
    error, an accepted one is written under the generated name and reported
    as [req.file].  This is the upload of a body whose text fields come
    first and whose one file, if any, is sent under [name]; [multer_single]
    below reads a body in the order it was sent. *)
Definition upload_single (fieldName : string) (req : Request)
  : Handler (option Js.Error * option StoredFile) :=
  match parts req fieldName with
  | None => ret (None, None)
  | Some part =>
      match fileFilter part with
      | Reject err => ret (Some err, None)
      | Accept =>
          outFileName <- storage_filename req part ;;
          let target := Js.join [storage_destination; outFileName] in
          writeFile target (content part) ;;
          ret (None, Some (mkStoredFile (originalname part) (mimetype part)
                             storage_destination outFileName target))
      end
  end.

Definition uploadHandler (req : Request) : Handler Upload :=
  let fieldName := "image" in
  '(err, reqFile) <- upload_single fieldName req ;;
  match err with
  | Some e =>
      ret (mkUpload reqFile
             (Some (mkValidationError fieldName (Js.message e) "body"
                                      (ofFile reqFile))))
  | None => ret (mkUpload reqFile None)
  end.

(** *** Field validation (express-validator) *)

(** The text express-validator validates: an absent field counts as the
    empty string. *)
Definition fieldText (v : field) : string :=
  match v with
  | Some s => s
  | None => EmptyString
  end.

(** [body(fieldName, message).notEmpty()]. *)
Definition notEmpty (fieldName message : string) (v : field)
  : list ValidationError :=
  if fieldText v =? ""
  then [mkValidationError fieldName message "body" (ofField v)]
  else [].

(** [body(fieldName).custom(validator)], given the validator's verdict. *)
Definition custom (fieldName : string) (v : field) (verdict : option string)
  : list ValidationError :=
  match verdict with
  | Some message => [mkValidationError fieldName message "body" (ofField v)]
  | None => []
  end.

(** [errors.isEmpty()]. *)
Definition isEmpty (errors : list ValidationError) : bool :=
  match errors with
  | [] => true
  | _ :: _ => false
  end.

(** [validationResult(req)] after the chains of [POST /users]. *)
Definition validationResult_post (req : Request) (w : World)
  : list ValidationError :=
  (notEmpty "name" "Name can't be blank" (body_name req)
   ++ notEmpty "email" "Email can't be blank" (body_email req)
   ++ notEmpty "password" "Password can't be blank" (body_password req)
   ++ custom "email" (body_email req) (isUniqueEmail (body_email req) (db w)))%list.

(** [validationResult(req)] after the chains of [PATCH /users/:userId]. *)
Definition validationResult_patch (req : Request) : list ValidationError :=
  (notEmpty "name" "Name can't be blank" (body_name req)
   ++ notEmpty "email" "Email can't be blank" (body_email req))%list.

(** *** The endpoints *)

(** [`/users/${user.id}`]. *)
Definition userUrl (user : User number) : string :=
  "/users/" ++ match id user with
               | Some n => numberToString n
               | None => "undefined"
               end.

(** The handler of [POST /users]. *)
Definition post_users_handler (req : Request) : Handler Response :=
  let name := body_name req in
  let email := body_email req in
  let password := body_password req in
  w <- get ;;
  let errors := validationResult_post req w in
  if negb (isEmpty errors)
  then ret (render "users/new" (newUserForm name email password) errors)
  else
    hashPassword <- generate newHashPassword (fieldText password) ;;
    let user := User_new name email hashPassword in
    w <- get ;;
    let (user, stored) := User_save user (db w) in
    put (set_db stored w) ;;
    call (userSave user) ;;
    whenPresent (hasAuthentication req) (call (login user)) ;;
    whenPresent (hasDialogMessage req)
                (call (setMessage "You have signed up successfully")) ;;
    ret (redirect (userUrl user)).

(** [POST /users]: the guard, then the handler. *)
Definition post_users (req : Request) : Handler Response :=
  match forbidAuthUser req with
  | Some answer => ret answer
  | None => post_users_handler req
  end.

(** The handler of [PATCH /users/:userId]. *)
Definition patch_user_handler (req : Request) (up : Upload)
  : Handler Response :=
  let userId := params_userId req in
  let name := body_name req in
  let email := body_email req in
  let errors := validationResult_patch req in
  if negb (isEmpty errors) || Js.present (uploadError up)
  then
    let validationErrors :=
      match uploadError up with
      | Some e => (errors ++ [e])%list
      | None => errors
      end in
    ret (render "users/edit" (editUserForm userId name email) validationErrors)
  else
    w <- get ;;
    match User_find (Number userId) (db w) with
    | None => ret (next (Js.mkError "Invalid error: The user is undefined."))
    | Some user =>
        let user := assignNameEmail user name email in
        user <- match file up with
                | Some f =>
                    ret (set_imageName (Js.replace "public" "" (path f)) user)
                | None => call (consoleLog "no file") ;; ret user
                end ;;
        w <- get ;;
        put (set_db (User_update user (db w)) w) ;;
        call (userUpdate user) ;;
        whenPresent (hasDialogMessage req)
          (call (setMessage "Your account has been updated successfully")) ;;
        ret (redirect (userUrl user))
    end.

(** [PATCH /users/:userId]: the guards, the upload, then the handler. *)
Definition patch_user (req : Request) : Handler Response :=
  match ensureAuthUser req with
  | Some answer => ret answer
  | None =>
      match ensureCorrectUser req with
      | Some answer => ret answer
      | None => up <- uploadHandler req ;; patch_user_handler req up
      end
  end.

(** *** The upload step over a multipart body *)

(** [upload.single(name)] over the parts as they were sent.  The text
    fields before the first file part are in [req.body] when that part is
    reached.  If the part is turned down, multer stops there: what follows
    is not read, nothing is stored, and the error is passed on.  If it is
    accepted, it is stored under the generated name and the text fields
    that follow are appended as well.  No file part may follow an accepted
    one: multer answers it with an error whose effect on [req.body]
    depends on when the pending write ends, which is outside this
    model. *)
Definition multer_single (name : string) (m : MultipartRequest)
  : Handler (list (string * string) * option Js.Error * option StoredFile) :=
  let (before, stop) := untilFile (multipart_parts m) in
  match stop with
  | None => ret (before, None, None)
  | Some (fieldName, part, rest) =>
      match wrappedFileFilter name fieldName part with
      | Reject err => ret (before, Some err, None)
      | Accept =>
          outFileName <- storage_filename (asRequest m before) part ;;
          let target := Js.join [storage_destination; outFileName] in
          writeFile target (content part) ;;
          ret ((before ++ textFields rest)%list, None,
               Some (mkStoredFile (originalname part) (mimetype part)
                       storage_destination outFileName target))
      end
  end.

(** [uploadHandler] over a multipart body: the text fields read, and what
    is left on the request. *)
Definition uploadHandler_parts (m : MultipartRequest)
  : Handler (list (string * string) * Upload) :=
  let fieldName := "image" in
  '(fields, err, reqFile) <- multer_single fieldName m ;;
  match err with
  | Some e =>
      ret (fields,
           mkUpload reqFile
             (Some (mkValidationError fieldName (Js.message e) "body"
                                      (ofFile reqFile))))
  | None => ret (fields, mkUpload reqFile None)
  end.

(** [PATCH /users/:userId] from the upload on, for a request the guards
    have let through: the upload, then the validation chains and the
    handler on the body the upload left. *)
Definition patch_user_parts (m : MultipartRequest) : Handler Response :=
  '(fields, up) <- uploadHandler_parts m ;;
  patch_user_handler (asRequest m fields) up.

(** *** The pages *)

(** [{...post, user}]: a post with the user [post.user()] gave. *)
Record PostWithUser : Type := mkPostWithUser {
  post : Post;
  postUser : option (User number)
}.

(** What the three page templates are given. *)
Inductive Locals : Type :=
| usersIndex (users : list (User number))
| userShow (user : User number) (posts : list PostWithUser)
           (activeTab : string)
| userEdit (user : option (User number)) (errors : list ValidationError).

(** How a page request ends: a rendered page, a guard's own answer, or
    [next(err)]. *)
Inductive PageResponse : Type :=
| renderPage (view : string) (locals : Locals)
| answered (answer : Response)
| nextPage (err : Js.Error).

(** [Promise.all(posts.map(async post => ({...post, user: await
    post.user()})))]. *)
Definition withUser (posts : list Post) (d : Db) : list PostWithUser :=
  List.map (fun p => mkPostWithUser p (Post_user p d)) posts.

(** [GET /users]. *)
Definition get_users_handler (req : Request) : Handler PageResponse :=
  w <- get ;;
  let users := User_all (db w) in
  ret (renderPage "users/index" (usersIndex users)).

Definition get_users (req : Request) : Handler PageResponse :=
  match ensureAuthUser req with
  | Some answer => ret (answered answer)
  | None => get_users_handler req
  end.

(** [GET /users/:userId]. *)
Definition get_user_handler (req : Request) : Handler PageResponse :=
  let userId := params_userId req in
  w <- get ;;
  match User_find (Number userId) (db w) with
  | None => ret (nextPage (Js.mkError "Invalid error: The user is undefined."))
  | Some user =>
      let posts := User_posts user (db w) in
      let postsWithUser := withUser posts (db w) in
      ret (renderPage "users/show" (userShow user postsWithUser "posts"))
  end.

Definition get_user (req : Request) : Handler PageResponse :=
  match ensureAuthUser req with
  | Some answer => ret (answered answer)
  | None => get_user_handler req
  end.

(** [GET /users/:userId/likes]. *)
Definition get_user_likes_handler (req : Request) : Handler PageResponse :=
  let userId := params_userId req in
  w <- get ;;
  match User_find (Number userId) (db w) with
  | None => ret (nextPage (Js.mkError "Invalid error: The user is undefined."))
  | Some user =>
      let posts := User_likedPosts user (db w) in
      let postsWithUser := withUser posts (db w) in
      ret (renderPage "users/show" (userShow user postsWithUser "likes"))
  end.

Definition get_user_likes (req : Request) : Handler PageResponse :=
  match ensureAuthUser req with
  | Some answer => ret (answered answer)
  | None => get_user_likes_handler req
  end.

(** [GET /users/:userId/edit]: whatever [User.find] gives goes to the
    template. *)
Definition get_user_edit_handler (req : Request) : Handler PageResponse :=
  let userId := params_userId req in
  w <- get ;;
  let user := User_find (Number userId) (db w) in
  ret (renderPage "users/edit" (userEdit user [])).

Definition get_user_edit (req : Request) : Handler PageResponse :=
  match ensureAuthUser req with
  | Some answer => ret (answered answer)
  | None =>
      match ensureCorrectUser req with
      | Some answer => ret (answered answer)
      | None => get_user_edit_handler req
      end
  end.

(** The error record [uploadHandler] leaves for a part the filter turned
    down: [req.file] is still undefined at that point. *)
Definition uploadRejection : ValidationError :=
  mkValidationError "image"
    "Only image files in png or jpeg format can be uploaded" "body" undefined.

(** ** Properties *)

(** *** Facts about [split] *)

Lemma split_not_nil (sep : ascii) (s : string) : Js.split sep s <> [].
Proof.
  induction s as [|c rest IH]; simpl; [discriminate|].
  destruct (Ascii.eqb c sep); [discriminate|].
  destruct (Js.split sep rest); discriminate.
Qed.

Lemma split_length (sep : ascii) (s : string) :
  List.length (Js.split sep s) = S (Js.occurrences sep s).
Proof.
  induction s as [|c rest IH]; simpl; [reflexivity|].
  destruct (Ascii.eqb c sep); simpl.
  - now rewrite IH.
  - destruct (Js.split sep rest) as [|piece pieces] eqn:E.
    + now apply split_not_nil in E.
    + simpl in *. exact IH.
Qed.

(** Splitting around one more separator splits both sides. *)
Lemma split_app (sep : ascii) (a b : string) :
  Js.split sep (a ++ String sep b) = (Js.split sep a ++ Js.split sep b)%list.
Proof.
  induction a as [|c rest IH]; simpl.
  - now rewrite Ascii.eqb_refl.
  - destruct (Ascii.eqb c sep); [now rewrite IH|].
    rewrite IH.
    destruct (Js.split sep rest) as [|piece pieces] eqn:E.
    + now apply split_not_nil in E.
    + reflexivity.
Qed.

Lemma split_no_separator (sep : ascii) (s : string) :
  Js.occurrences sep s = 0 -> Js.split sep s = [s].
Proof.
  induction s as [|c rest IH]; cbn; [reflexivity|].
  destruct (Ascii.eqb c sep); [discriminate|].
  cbn. intros H. now rewrite (IH H).
Qed.

(** A string with exactly one separator splits into its two sides. *)
Lemma split_two (sep : ascii) (a b : string) :
  Js.occurrences sep a = 0 -> Js.occurrences sep b = 0 ->
  Js.split sep (a ++ String sep b) = [a; b].
Proof.
  intros Ha Hb.
  now rewrite split_app, (split_no_separator _ _ Ha), (split_no_separator _ _ Hb).
Qed.

Example split_examples :
  Js.split "/" "image/png" = ["image"; "png"] /\
  Js.split "/" "image" = ["image"] /\
  Js.split "/" "" = [""] /\
  Js.split "/" "image/" = ["image"; ""] /\
  Js.split "/" "/png" = [""; "png"] /\
  Js.split "/" "a//b" = ["a"; ""; "b"].
Proof. repeat split; reflexivity. Qed.

Example replace_examples :
  Js.replace "public" "" "public/image/users/V1StGXR8.png" =
    "/image/users/V1StGXR8.png" /\
  Js.replace "public" "" "srv/public/public" = "srv//public" /\
  Js.replace "public" "" "image" = "image".
Proof. repeat split; reflexivity. Qed.

Lemma includes_In (arr : list string) (x : string) :
  Js.includes arr x = true <-> In x arr.
Proof.
  unfold Js.includes. rewrite existsb_exists. split.
  - intros (y & Hy & E). apply String.eqb_eq in E. now subst.
  - intros H. exists x. split; [exact H | apply String.eqb_refl].
Qed.

(** The filter's decision in terms of the two pieces it looks at. *)
Lemma toAcceptable_Some (s subtype : string) :
  toAcceptableImageMediaType s = Some ("image", subtype) <->
  mediaTypeOf s = Some "image" /\
  mediaSubtypeOf s = Some subtype /\ In subtype ACCEPTABLE_SUBTYPES.
Proof.
  unfold toAcceptableImageMediaType. split.
  - destruct (mediaTypeOf s) as [[|c ty]|]; cbn [Js.falsy orb];
      try discriminate;
      destruct (mediaSubtypeOf s) as [[|d st]|]; cbn [Js.falsy orb];
      try discriminate.
    destruct (String.eqb_spec (String c ty) "image") as [E|NE];
      cbn [negb]; [|discriminate].
    destruct (isAcceptableSubtype (String d st)) eqn:A;
      cbn [negb]; [|discriminate].
    intros H. inversion H; subst. rewrite E.
    repeat split. now apply includes_In.
  - intros (Hty & Hsub & Hin). rewrite Hty, Hsub.
    destruct Hin as [<-|[<-|[]]]; reflexivity.
Qed.

Lemma toAcceptable_shape (s : string) (p : string * string) :
  toAcceptableImageMediaType s = Some p -> exists subtype, p = ("image", subtype).
Proof.
  unfold toAcceptableImageMediaType.
  destruct (Js.falsy _ || Js.falsy _); [discriminate|].
  destruct (mediaTypeOf s), (mediaSubtypeOf s); try discriminate.
  destruct (negb _); [discriminate|].
  destruct (negb _); [discriminate|].
  intros H. inversion H. now eexists.
Qed.

(** Accepting, said with the two pieces the filter reads. *)
Lemma accepted_iff (s : string) :
  toAcceptableImageMediaType s <> None <->
  mediaTypeOf s = Some "image" /\
  exists subtype, mediaSubtypeOf s = Some subtype /\ In subtype ACCEPTABLE_SUBTYPES.
Proof.
  split.
  - destruct (toAcceptableImageMediaType s) as [p|] eqn:E; [intros _|easy].
    destruct (toAcceptable_shape _ _ E) as (subtype & ->).
    apply toAcceptable_Some in E. destruct E as (Hty & Hsub & Hin).
    split; [exact Hty | now exists subtype].
  - intros (Hty & subtype & Hsub & Hin).
    assert (E : toAcceptableImageMediaType s = Some ("image", subtype))
      by now apply toAcceptable_Some.
    now rewrite E.
Qed.

(** For a string with one slash, the two pieces are its two sides. *)
Lemma accepted_well_formed (ty subtype : string) :
  Js.occurrences "/" ty = 0 -> Js.occurrences "/" subtype = 0 ->
  (toAcceptableImageMediaType (ty ++ "/" ++ subtype) <> None <->
   ty = "image" /\ In subtype ACCEPTABLE_SUBTYPES).
Proof.
  intros Hty Hsub. rewrite accepted_iff.
  unfold mediaTypeOf, mediaSubtypeOf.
  change (ty ++ "/" ++ subtype) with (ty ++ String "/" subtype).
  rewrite (split_two _ _ _ Hty Hsub). cbn [nth_error]. split.
  - intros (E & st & Est & Hin). inversion E. inversion Est. subst. now split.
  - intros (-> & Hin). split; [reflexivity|]. now exists subtype.
Qed.

Lemma fileFilter_Accept (part : IncomingFile) :
  fileFilter part = Accept <-> toAcceptableImageMediaType (mimetype part) <> None.
Proof.
  unfold fileFilter.
  destruct (toAcceptableImageMediaType (mimetype part)); split; easy.
Qed.

Lemma fileFilter_Reject (part : IncomingFile) :
  toAcceptableImageMediaType (mimetype part) = None ->
  fileFilter part = Reject (Js.mkError onlyImagesMessage).
Proof. unfold fileFilter. now intros ->. Qed.



(** *** Running a handler *)

Lemma run_bind (A B : Type) (m : Handler A) (f : A -> Handler B) (w : World) :
  runState (bind m f) w = (let (a, w') := runState m w in runState (f a) w').
Proof. reflexivity. Qed.

Lemma draw_run (source : Entropy -> string * Entropy) (w : World) :
  runState (draw source) w =
  (fst (source (entropy w)), set_entropy (snd (source (entropy w))) w).
Proof.
  unfold draw. cbn. destruct (source (entropy w)); reflexivity.
Qed.

Lemma storage_filename_run (req : Request) (part : IncomingFile) (w : World) :
  runState (storage_filename req part) w =
  (fst (nanoid (entropy w)) ++ "." ++
     Js.interpolate (mediaSubtypeOf (mimetype part)),
   set_entropy (snd (nanoid (entropy w))) w).
Proof.
  unfold storage_filename. rewrite run_bind, draw_run. reflexivity.
Qed.

Lemma generate_run (self : HashPassword) (plain : string) (w : World) :
  runState (generate self plain) w =
  (hashWithSalt plain (saltRounds self) (fst (genSalt (entropy w))),
   set_journal (bcryptHash plain (saltRounds self) :: journal w)
               (set_entropy (snd (genSalt (entropy w))) w)).
Proof.
  unfold generate, bcrypt_hash. rewrite run_bind, draw_run. reflexivity.
Qed.

(** *** The upload filter *)

(** C1.  The filter accepts a declared media type exactly when its type
    part (the piece before the first slash) is image and its subtype part
    (the piece after it, up to the next slash) is png or jpeg; anything
    else, a string without a slash included, is rejected with the message
    that only png and jpeg images can be uploaded.  For a string of the
    form type/subtype with a single slash, that is: exactly when the type
    is image and the subtype is png or jpeg.  image/png and image/jpeg are
    accepted; image/gif, text/plain and image are not. *)
Theorem classify_accepts_exactly_png_jpeg_images :
  (forall part : IncomingFile,
     let s := mimetype part in
     let allowed :=
       mediaTypeOf s = Some "image" /\
       exists subtype,
         mediaSubtypeOf s = Some subtype /\ In subtype ["png"; "jpeg"] in
     (toAcceptableImageMediaType s <> None <-> allowed) /\
     (fileFilter part = Accept <-> allowed) /\
     (~ allowed ->
      fileFilter part =
      Reject (Js.mkError
                "Only image files in png or jpeg format can be uploaded")))
  /\ (forall ty subtype : string,
        Js.occurrences "/" ty = 0 -> Js.occurrences "/" subtype = 0 ->
        (toAcceptableImageMediaType (ty ++ "/" ++ subtype) <> None <->
         ty = "image" /\ In subtype ["png"; "jpeg"]))
  /\ toAcceptableImageMediaType "image/png" = Some ("image", "png")
  /\ toAcceptableImageMediaType "image/jpeg" = Some ("image", "jpeg")
  /\ toAcceptableImageMediaType "image/gif" = None
  /\ toAcceptableImageMediaType "text/plain" = None
  /\ toAcceptableImageMediaType "image" = None.
Proof.
  split.
  - intros part s allowed. subst allowed.
    pose proof (accepted_iff s) as Hiff.
    split; [exact Hiff|]. split.
    + rewrite fileFilter_Accept. exact Hiff.
    + intros H. apply fileFilter_Reject.
      destruct (toAcceptableImageMediaType (mimetype part)) eqn:E;
        [|reflexivity].
      exfalso. apply H, Hiff. subst s. now rewrite E.
  - split; [exact accepted_well_formed|].
    repeat split; reflexivity.
Qed.

(** C10.  A declared media type with more than one slash whose first two
    pieces are image and an allowed subtype passes the filter, whatever
    follows the second slash, and the stored file's name takes its
    extension from the second piece alone. *)
Theorem extra_segments_are_ignored
  (req : Request) (part : IncomingFile) (subtype : string) (w : World) :
  1 < Js.occurrences "/" (mimetype part) ->
  mediaTypeOf (mimetype part) = Some "image" ->
  mediaSubtypeOf (mimetype part) = Some subtype ->
  In subtype ACCEPTABLE_SUBTYPES ->
  fileFilter part = Accept /\
  toAcceptableImageMediaType (mimetype part) = Some ("image", subtype) /\
  evalState (storage_filename req part) w =
  fst (nanoid (entropy w)) ++ "." ++ subtype.
Proof.
  intros _ Hty Hsub Hin.
  assert (E : toAcceptableImageMediaType (mimetype part) = Some ("image", subtype))
    by now apply toAcceptable_Some.
  repeat split.
  - apply fileFilter_Accept. now rewrite E.
  - exact E.
  - unfold evalState. rewrite storage_filename_run. cbn [fst].
    now rewrite Hsub.
Qed.


(** *** Password hashing *)

Lemma compare_hashWithSalt (self : HashPassword) (plain other : string)
  (rounds : nat) (s : string) :
  compare self plain (hashWithSalt other rounds s) =
  Some (digestOf rounds s plain =? digestOf rounds s other).
Proof.
  unfold compare, bcrypt_compare, hashWithSalt.
  now rewrite parse_format.
Qed.

Lemma hashWithSalt_salt (plain other : string) (rounds : nat) (s s' : string) :
  hashWithSalt plain rounds s = hashWithSalt other rounds s' -> s = s'.
Proof.
  unfold hashWithSalt. intros H.
  apply (f_equal parseHash) in H. rewrite !parse_format in H.
  now inversion H.
Qed.

(** C2.  A hash made by [generate] from a plaintext verifies against that
    plaintext, whatever salt the call drew. *)
Theorem compare_accepts_generated_hash
  (self : HashPassword) (plain : string) (w : World) :
  compare self plain (evalState (generate self plain) w) = Some true.
Proof.
  unfold evalState. rewrite generate_run. cbn [fst].
  rewrite compare_hashWithSalt. now rewrite String.eqb_refl.
Qed.

(** C3.  Two calls of [generate] on one plaintext that draw different
    salts return different hash strings, and each of the two verifies
    against the plaintext. *)
Theorem fresh_salts_give_distinct_valid_hashes
  (self : HashPassword) (plain : string) (w1 w2 : World) :
  fst (genSalt (entropy w1)) <> fst (genSalt (entropy w2)) ->
  let hash1 := evalState (generate self plain) w1 in
  let hash2 := evalState (generate self plain) w2 in
  hash1 <> hash2 /\
  compare self plain hash1 = Some true /\
  compare self plain hash2 = Some true.
Proof.
  intros Hfresh hash1 hash2. subst hash1 hash2.
  unfold evalState. rewrite !generate_run. cbn [fst].
  split; [|split].
  - intros E. apply Hfresh. exact (hashWithSalt_salt _ _ _ _ _ E).
  - rewrite compare_hashWithSalt. now rewrite String.eqb_refl.
  - rewrite compare_hashWithSalt. now rewrite String.eqb_refl.
Qed.

(** Verifying another plaintext against a generated hash compares the two
    digests under the hash's own cost and salt, and nothing else. *)
Lemma compare_other_plaintext
  (self : HashPassword) (plain other : string) (w : World) :
  compare self plain (evalState (generate self other) w) =
  Some (digestOf (saltRounds self) (fst (genSalt (entropy w))) plain =?
        digestOf (saltRounds self) (fst (genSalt (entropy w))) other).
Proof.
  unfold evalState. rewrite generate_run. cbn [fst].
  apply compare_hashWithSalt.
Qed.

(** *** The upload step of a profile update *)

Lemma upload_single_rejected
  (fieldName : string) (req : Request) (part : IncomingFile) (w : World) :
  parts req fieldName = Some part ->
  toAcceptableImageMediaType (mimetype part) = None ->
  runState (upload_single fieldName req) w =
  ((Some (Js.mkError onlyImagesMessage), None), w).
Proof.
  intros Hpart Hrej. unfold upload_single.
  rewrite Hpart, (fileFilter_Reject _ Hrej). reflexivity.
Qed.

Lemma uploadHandler_rejected (req : Request) (part : IncomingFile) (w : World) :
  parts req "image" = Some part ->
  toAcceptableImageMediaType (mimetype part) = None ->
  runState (uploadHandler req) w = (mkUpload None (Some uploadRejection), w).
Proof.
  intros Hpart Hrej. unfold uploadHandler.
  rewrite run_bind, (upload_single_rejected _ _ _ w Hpart Hrej). reflexivity.
Qed.

Lemma uploadHandler_no_file (req : Request) (w : World) :
  parts req "image" = None ->
  runState (uploadHandler req) w = (mkUpload None None, w).
Proof.
  intros Hpart. unfold uploadHandler, upload_single.
  rewrite run_bind, Hpart. reflexivity.
Qed.

(** A profile update whose upload the filter rejects: the whole outcome. *)
Lemma patch_user_rejected (req : Request) (part : IncomingFile) (w : World) :
  ensureAuthUser req = None ->
  ensureCorrectUser req = None ->
  parts req "image" = Some part ->
  toAcceptableImageMediaType (mimetype part) = None ->
  runState (patch_user req) w =
  (render "users/edit"
     (editUserForm (params_userId req) (body_name req) (body_email req))
     (validationResult_patch req ++ [uploadRejection]),
   w).
Proof.
  intros Hauth Hcorrect Hpart Hrej. unfold patch_user.
  rewrite Hauth, Hcorrect, run_bind, (uploadHandler_rejected _ _ w Hpart Hrej).
  unfold patch_user_handler. cbn [uploadError Js.present].
  now rewrite orb_true_r.
Qed.

(** C6.  When the filter rejects the uploaded file of a profile update,
    the request ends by rendering the edit form again, and the errors it
    shows are the field-validation errors of the request followed by one
    record for the upload, with param, msg, location and value; the
    request is never passed on as an error. *)
Theorem rejected_upload_joins_the_form_errors
  (req : Request) (part : IncomingFile) (w : World) :
  ensureAuthUser req = None ->
  ensureCorrectUser req = None ->
  parts req "image" = Some part ->
  toAcceptableImageMediaType (mimetype part) = None ->
  evalState (patch_user req) w =
  render "users/edit"
    (editUserForm (params_userId req) (body_name req) (body_email req))
    (validationResult_patch req ++
     [{| param := "image";
         msg := "Only image files in png or jpeg format can be uploaded";
         location := "body";
         value := undefined |}]) /\
  (forall err : Js.Error, evalState (patch_user req) w <> next err).
Proof.
  intros Hauth Hcorrect Hpart Hrej. unfold evalState.
  rewrite (patch_user_rejected _ _ w Hauth Hcorrect Hpart Hrej). cbn [fst].
  split; [reflexivity | discriminate].
Qed.

(** *** Signing up *)

Lemma notEmpty_blank (fieldName message : string) (v : field) :
  fieldText v = "" ->
  notEmpty fieldName message v =
  [mkValidationError fieldName message "body" (ofField v)].
Proof. unfold notEmpty. now intros ->. Qed.

Lemma notEmpty_filled (fieldName message : string) (v : field) :
  fieldText v <> "" -> notEmpty fieldName message v = [].
Proof.
  unfold notEmpty. intros H.
  now destruct (String.eqb_spec (fieldText v) "").
Qed.

(** C7.  A signup whose name field is empty ends by rendering the signup
    form again with the error that the name cannot be blank, and leaves the
    world as it was: no password hash is computed and no user is saved. *)
Theorem blank_name_rerenders_the_signup_form (req : Request) (w : World) :
  forbidAuthUser req = None ->
  fieldText (body_name req) = "" ->
  exists others : list ValidationError,
    runState (post_users req) w =
    (render "users/new"
       (newUserForm (body_name req) (body_email req) (body_password req))
       ({| param := "name";
           msg := "Name can't be blank";
           location := "body";
           value := ofField (body_name req) |} :: others),
     w).
Proof.
  intros Hguard Hblank. unfold post_users. rewrite Hguard.
  unfold post_users_handler. cbn.
  unfold validationResult_post.
  rewrite (notEmpty_blank "name" "Name can't be blank" _ Hblank).
  cbn. now eexists.
Qed.

(** *** Updating a profile without a file *)

(** C9.  A profile update that passes validation, carries no file and
    names an existing user hands the model that user with the submitted
    name and email and with the image name it had, writes nothing to
    storage, and ends with the redirect to the user's page. *)
Theorem update_without_file_keeps_the_image
  (req : Request) (w : World) (user : User number) :
  ensureAuthUser req = None ->
  ensureCorrectUser req = None ->
  parts req "image" = None ->
  fieldText (body_name req) <> "" ->
  fieldText (body_email req) <> "" ->
  User_find (Number (params_userId req)) (db w) = Some user ->
  let updated := assignNameEmail user (body_name req) (body_email req) in
  let after := execState (patch_user req) w in
  evalState (patch_user req) w = redirect (userUrl updated) /\
  db after = User_update updated (db w) /\
  In (userUpdate updated) (journal after) /\
  imageName updated = imageName user /\
  name updated = body_name req /\
  email updated = body_email req /\
  disk after = disk w.
Proof.
  intros Hauth Hcorrect Hpart Hname Hemail Hfind updated after.
  subst after. unfold evalState, execState, patch_user.
  rewrite Hauth, Hcorrect, run_bind, (uploadHandler_no_file _ w Hpart).
  unfold patch_user_handler, validationResult_patch.
  rewrite (notEmpty_filled _ _ _ Hname), (notEmpty_filled _ _ _ Hemail).
  cbn. rewrite Hfind. cbn.
  destruct (hasDialogMessage req); cbn; repeat split; auto.
Qed.

(** *** Which strings the filter accepts *)

(** Joining the pieces of a split with the separator gives the string
    back. *)
Lemma concat_split (sep : ascii) (s : string) :
  String.concat (String sep "") (Js.split sep s) = s.
Proof.
  induction s as [|c rest IH]; [reflexivity|].
  cbn [Js.split]. destruct (Ascii.eqb_spec c sep) as [->|_].
  - destruct (Js.split sep rest) as [|piece pieces] eqn:E.
    + now apply split_not_nil in E.
    + rewrite <- IH. reflexivity.
  - destruct (Js.split sep rest) as [|piece pieces] eqn:E.
    + now apply split_not_nil in E.
    + rewrite <- IH. now destruct pieces.
Qed.

(** A string whose split starts with two given pieces is the two pieces
    around a slash, alone or followed by a slash and more. *)
Lemma split_two_pieces (s a b : string) (more : list string) :
  Js.split "/" s = a :: b :: more ->
  s = a ++ "/" ++ b \/ exists rest, s = a ++ "/" ++ b ++ "/" ++ rest.
Proof.
  intros E. pose proof (concat_split "/" s) as J. rewrite E in J.
  destruct more as [|c more]; cbn [String.concat] in J.
  - left. now symmetry.
  - right. eexists. symmetry. exact J.
Qed.

(** X1.  The filter accepts image/png and image/jpeg, each of the two
    followed by a slash and any text, and no other string. *)
Theorem accepted_strings (s : string) :
  toAcceptableImageMediaType s <> None <->
  exists subtype : string,
    In subtype ACCEPTABLE_SUBTYPES /\
    (s = "image/" ++ subtype \/
     exists rest : string, s = "image/" ++ subtype ++ "/" ++ rest).
Proof.
  rewrite accepted_iff. unfold mediaTypeOf, mediaSubtypeOf. split.
  - intros (Hty & subtype & Hsub & Hin). exists subtype. split; [exact Hin|].
    destruct (Js.split "/" s) as [|a [|b more]] eqn:E; try discriminate.
    cbn in Hty, Hsub. inversion Hty. inversion Hsub. subst a b.
    exact (split_two_pieces _ _ _ _ E).
  - intros (subtype & Hin & [->|(rest & ->)]).
    + destruct Hin as [<-|[<-|[]]]; cbn;
        (split; [reflexivity | eexists; split; [reflexivity | cbn; tauto]]).
    + assert (Hsplit : Js.split "/" ("image/" ++ subtype ++ "/" ++ rest) =
                       ("image" :: subtype :: Js.split "/" rest)%list).
      { change ("image/" ++ subtype ++ "/" ++ rest)
          with ("image" ++ String "/" (subtype ++ String "/" rest)).
        rewrite !split_app.
        destruct Hin as [<-|[<-|[]]]; reflexivity. }
      rewrite Hsplit. cbn. split; [reflexivity|]. now exists subtype.
Qed.

(** *** What the upload step leaves behind *)

Lemma upload_single_accepted
  (fieldName : string) (req : Request) (part : IncomingFile)
  (subtype : string) (w : World) :
  parts req fieldName = Some part ->
  toAcceptableImageMediaType (mimetype part) = Some ("image", subtype) ->
  runState (upload_single fieldName req) w =
  ((None,
    Some (mkStoredFile (originalname part) (mimetype part)
            "public/image/users"
            (fst (nanoid (entropy w)) ++ "." ++ subtype)
            ("public/image/users/" ++ fst (nanoid (entropy w)) ++ "." ++ subtype))),
   mkWorld (db w)
     (("public/image/users/" ++ fst (nanoid (entropy w)) ++ "." ++ subtype,
       content part) :: disk w)
     (snd (nanoid (entropy w))) (journal w)).
Proof.
  intros Hpart Hacc. unfold upload_single. rewrite Hpart.
  assert (Hfilter : fileFilter part = Accept)
    by (apply fileFilter_Accept; now rewrite Hacc).
  rewrite Hfilter, run_bind, storage_filename_run.
  apply toAcceptable_Some in Hacc. destruct Hacc as (_ & -> & _).
  reflexivity.
Qed.

Lemma uploadHandler_accepted
  (req : Request) (part : IncomingFile) (subtype : string) (w : World) :
  parts req "image" = Some part ->
  toAcceptableImageMediaType (mimetype part) = Some ("image", subtype) ->
  runState (uploadHandler req) w =
  (mkUpload
     (Some (mkStoredFile (originalname part) (mimetype part)
              "public/image/users"
              (fst (nanoid (entropy w)) ++ "." ++ subtype)
              ("public/image/users/" ++ fst (nanoid (entropy w)) ++ "." ++ subtype)))
     None,
   mkWorld (db w)
     (("public/image/users/" ++ fst (nanoid (entropy w)) ++ "." ++ subtype,
       content part) :: disk w)
     (snd (nanoid (entropy w))) (journal w)).
Proof.
  intros Hpart Hacc. unfold uploadHandler.
  rewrite run_bind, (upload_single_accepted _ _ _ _ w Hpart Hacc). reflexivity.
Qed.

(** X3.  An image part the filter accepts is written once, with its bytes,
    at public/image/users/<identifier>.<subtype>, where the subtype is png
    or jpeg; that path is what the request then carries as its file, with
    no upload error, and nothing else in the world changes but the
    entropy the identifier was drawn from. *)
Theorem accepted_upload_is_written_under_the_generated_name
  (req : Request) (part : IncomingFile) (w : World) :
  parts req "image" = Some part ->
  toAcceptableImageMediaType (mimetype part) <> None ->
  exists subtype : string,
    In subtype ["png"; "jpeg"] /\
    let target :=
      "public/image/users/" ++ fst (nanoid (entropy w)) ++ "." ++ subtype in
    let up := evalState (uploadHandler req) w in
    let after := execState (uploadHandler req) w in
    option_map path (file up) = Some target /\
    uploadError up = None /\
    disk after = (target, content part) :: disk w /\
    db after = db w /\
    journal after = journal w /\
    entropy after = snd (nanoid (entropy w)).
Proof.
  intros Hpart Hacc.
  destruct (toAcceptableImageMediaType (mimetype part)) as [p|] eqn:E;
    [clear Hacc | easy].
  destruct (toAcceptable_shape _ _ E) as (subtype & ->).
  exists subtype. split; [now apply toAcceptable_Some in E|].
  cbv zeta. unfold evalState, execState.
  rewrite (uploadHandler_accepted _ _ _ w Hpart E). cbn.
  repeat split.
Qed.

(** X4.  Left to itself, the filename callback gives a declared media type
    without a slash the extension undefined: it is the filter in front of
    it that keeps such names off the disk. *)
Theorem filename_without_subtype_ends_in_undefined
  (req : Request) (part : IncomingFile) (w : World) :
  Js.occurrences "/" (mimetype part) = 0 ->
  evalState (storage_filename req part) w =
    fst (nanoid (entropy w)) ++ ".undefined" /\
  fileFilter part = Reject (Js.mkError onlyImagesMessage).
Proof.
  intros Hnone. unfold evalState. rewrite storage_filename_run. cbn [fst].
  unfold fileFilter, toAcceptableImageMediaType, mediaTypeOf, mediaSubtypeOf.
  rewrite (split_no_separator _ _ Hnone). cbn [nth_error Js.interpolate].
  split; [reflexivity|].
  cbn. now rewrite orb_true_r.
Qed.

(** *** Profile updates, branch by branch *)

Lemma substring_all (s : string) : substring 0 (String.length s) s = s.
Proof. induction s as [|c s IH]; cbn; [reflexivity | now rewrite IH]. Qed.

(** The image name of a stored file: its path without the leading
    public. *)
Lemma public_prefix_removed (rest : string) :
  Js.replace "public" "" ("public/image/users/" ++ rest) =
  "/image/users/" ++ rest.
Proof. cbn. now rewrite substring_all. Qed.

Lemma patch_user_run (req : Request) (w : World) :
  ensureAuthUser req = None ->
  ensureCorrectUser req = None ->
  runState (patch_user req) w =
  (let (up, w') := runState (uploadHandler req) w in
   runState (patch_user_handler req up) w').
Proof.
  intros Hauth Hcorrect. unfold patch_user.
  now rewrite Hauth, Hcorrect, run_bind.
Qed.

Lemma isEmpty_false (errors : list ValidationError) :
  errors <> [] -> isEmpty errors = false.
Proof. now destruct errors. Qed.

Lemma patch_handler_rerenders (req : Request) (up : Upload) (w : World) :
  validationResult_patch req <> [] \/ uploadError up <> None ->
  runState (patch_user_handler req up) w =
  (render "users/edit"
     (editUserForm (params_userId req) (body_name req) (body_email req))
     match uploadError up with
     | Some e => (validationResult_patch req ++ [e])%list
     | None => validationResult_patch req
     end,
   w).
Proof.
  intros H. unfold patch_user_handler.
  assert (Hcond : negb (isEmpty (validationResult_patch req))
                  || Js.present (uploadError up) = true).
  { destruct H as [H|H].
    - now rewrite (isEmpty_false _ H).
    - destruct (uploadError up); [apply orb_true_r | easy]. }
  now rewrite Hcond.
Qed.

Lemma patch_handler_goes_on (req : Request) (up : Upload) (w : World) :
  fieldText (body_name req) <> "" ->
  fieldText (body_email req) <> "" ->
  uploadError up = None ->
  runState (patch_user_handler req up) w =
  match User_find (Number (params_userId req)) (db w) with
  | None => (next (Js.mkError "Invalid error: The user is undefined."), w)
  | Some user =>
      let named := assignNameEmail user (body_name req) (body_email req) in
      let updated :=
        match file up with
        | Some f => set_imageName (Js.replace "public" "" (path f)) named
        | None => named
        end in
      (redirect (userUrl updated),
       mkWorld (User_update updated (db w)) (disk w) (entropy w)
         ((if hasDialogMessage req
           then [setMessage "Your account has been updated successfully"]
           else [])
          ++ userUpdate updated
          :: (match file up with
              | Some _ => []
              | None => [consoleLog "no file"]
              end)
          ++ journal w))
  end.
Proof.
  intros Hname Hemail Hnoerr. unfold patch_user_handler, validationResult_patch.
  rewrite (notEmpty_filled _ _ _ Hname), (notEmpty_filled _ _ _ Hemail), Hnoerr.
  cbn. destruct (User_find (Number (params_userId req)) (db w)); [|reflexivity].
  destruct (file up), (hasDialogMessage req); reflexivity.
Qed.

(** The handler itself writes no file and draws no identifier. *)
Lemma patch_handler_keeps_disk (req : Request) (up : Upload) (w : World) :
  disk (execState (patch_user_handler req up) w) = disk w /\
  entropy (execState (patch_user_handler req up) w) = entropy w.
Proof.
  unfold execState, patch_user_handler.
  destruct (negb (isEmpty (validationResult_patch req))
            || Js.present (uploadError up)); [now cbn|].
  cbn. destruct (User_find (Number (params_userId req)) (db w)); [|now cbn].
  destruct (file up), (hasDialogMessage req); now cbn.
Qed.

Lemma validationResult_patch_blank (req : Request) :
  fieldText (body_name req) = "" \/ fieldText (body_email req) = "" ->
  validationResult_patch req <> [].
Proof.
  unfold validationResult_patch, notEmpty. intros [H|H]; rewrite H; cbn.
  - discriminate.
  - destruct (fieldText (body_name req) =? ""); discriminate.
Qed.

(** X5.  A valid profile update with an accepted image writes the image at
    public/image/users/<identifier>.<subtype> and hands the model the user
    with the submitted name and email and with that path, less the leading
    public, as image name: the image name always names a file that is on
    the disk under public. *)
Theorem accepted_image_becomes_the_users_image
  (req : Request) (part : IncomingFile) (w : World) (user : User number) :
  ensureAuthUser req = None ->
  ensureCorrectUser req = None ->
  parts req "image" = Some part ->
  toAcceptableImageMediaType (mimetype part) <> None ->
  fieldText (body_name req) <> "" ->
  fieldText (body_email req) <> "" ->
  User_find (Number (params_userId req)) (db w) = Some user ->
  exists subtype : string,
    In subtype ["png"; "jpeg"] /\
    let image :=
      "/image/users/" ++ fst (nanoid (entropy w)) ++ "." ++ subtype in
    let updated :=
      mkUser (id user) (body_name req) (body_email req) (password user) image in
    let after := execState (patch_user req) w in
    evalState (patch_user req) w = redirect (userUrl updated) /\
    db after = User_update updated (db w) /\
    In (userUpdate updated) (journal after) /\
    disk after = ("public" ++ image, content part) :: disk w.
Proof.
  intros Hauth Hcorrect Hpart Hacc Hname Hemail Hfind.
  destruct (toAcceptableImageMediaType (mimetype part)) as [p|] eqn:E;
    [clear Hacc | easy].
  destruct (toAcceptable_shape _ _ E) as (subtype & ->).
  exists subtype. split; [now apply toAcceptable_Some in E|].
  cbv zeta. unfold evalState, execState.
  rewrite (patch_user_run _ w Hauth Hcorrect),
          (uploadHandler_accepted _ _ _ w Hpart E).
  rewrite patch_handler_goes_on; [|exact Hname|exact Hemail|reflexivity].
  cbn [db file path]. rewrite Hfind, public_prefix_removed.
  cbn [fst snd db disk journal].
  repeat split. apply in_or_app. right. now left.
Qed.

(** X6.  The image is written before the fields are looked at: a profile
    update with an accepted image and an empty name or email shows the
    edit form again with the field errors alone, updates no user, and
    leaves the image on the disk. *)
Theorem accepted_image_is_written_even_if_fields_are_blank
  (req : Request) (part : IncomingFile) (w : World) :
  ensureAuthUser req = None ->
  ensureCorrectUser req = None ->
  parts req "image" = Some part ->
  toAcceptableImageMediaType (mimetype part) <> None ->
  fieldText (body_name req) = "" \/ fieldText (body_email req) = "" ->
  exists subtype : string,
    In subtype ["png"; "jpeg"] /\
    let after := execState (patch_user req) w in
    evalState (patch_user req) w =
    render "users/edit"
      (editUserForm (params_userId req) (body_name req) (body_email req))
      (validationResult_patch req) /\
    validationResult_patch req <> [] /\
    disk after =
    ("public/image/users/" ++ fst (nanoid (entropy w)) ++ "." ++ subtype,
     content part) :: disk w /\
    db after = db w /\
    journal after = journal w.
Proof.
  intros Hauth Hcorrect Hpart Hacc Hblank.
  destruct (toAcceptableImageMediaType (mimetype part)) as [p|] eqn:E;
    [clear Hacc | easy].
  destruct (toAcceptable_shape _ _ E) as (subtype & ->).
  exists subtype. split; [now apply toAcceptable_Some in E|].
  pose proof (validationResult_patch_blank _ Hblank) as Herr.
  cbv zeta. unfold evalState, execState.
  rewrite (patch_user_run _ w Hauth Hcorrect),
          (uploadHandler_accepted _ _ _ w Hpart E),
          (patch_handler_rerenders _ _ _ (or_introl Herr)).
  cbn. repeat split. exact Herr.
Qed.

(** When no image part is rejected, the upload step reports no error and
    touches neither the store nor the journal. *)
Lemma uploadHandler_without_rejection (req : Request) (w : World) :
  (forall part : IncomingFile,
     parts req "image" = Some part ->
     toAcceptableImageMediaType (mimetype part) <> None) ->
  uploadError (fst (runState (uploadHandler req) w)) = None /\
  db (snd (runState (uploadHandler req) w)) = db w /\
  journal (snd (runState (uploadHandler req) w)) = journal w.
Proof.
  intros Hparts. destruct (parts req "image") as [part|] eqn:Hpart.
  - specialize (Hparts part eq_refl).
    destruct (toAcceptableImageMediaType (mimetype part)) as [p|] eqn:E;
      [|easy].
    destruct (toAcceptable_shape _ _ E) as (subtype & ->).
    now rewrite (uploadHandler_accepted _ _ _ w Hpart E).
  - now rewrite (uploadHandler_no_file _ w Hpart).
Qed.

(** X7.  A profile update that passes validation but names a user the
    model does not find is handed on as the error "Invalid error: The user
    is undefined."; no user is updated, and whatever the upload step wrote
    stays. *)
Theorem update_of_a_missing_user_is_an_error (req : Request) (w : World) :
  ensureAuthUser req = None ->
  ensureCorrectUser req = None ->
  (forall part : IncomingFile,
     parts req "image" = Some part ->
     toAcceptableImageMediaType (mimetype part) <> None) ->
  fieldText (body_name req) <> "" ->
  fieldText (body_email req) <> "" ->
  User_find (Number (params_userId req)) (db w) = None ->
  let after := execState (patch_user req) w in
  evalState (patch_user req) w =
  next (Js.mkError "Invalid error: The user is undefined.") /\
  db after = db w /\
  journal after = journal w /\
  disk after = disk (execState (uploadHandler req) w).
Proof.
  intros Hauth Hcorrect Hparts Hname Hemail Hfind. cbv zeta.
  unfold evalState, execState. rewrite (patch_user_run _ w Hauth Hcorrect).
  pose proof (uploadHandler_without_rejection _ w Hparts)
    as (Hnoerr & Hdb & Hjournal).
  destruct (runState (uploadHandler req) w) as [up w']. cbn [fst snd] in *.
  rewrite (patch_handler_goes_on _ _ _ Hname Hemail Hnoerr).
  rewrite Hdb, Hfind. cbn [fst snd]. now rewrite Hdb, Hjournal.
Qed.

(** *** Signing up, branch by branch *)

Lemma post_handler_rerenders (req : Request) (w : World) :
  validationResult_post req w <> [] ->
  runState (post_users_handler req) w =
  (render "users/new"
     (newUserForm (body_name req) (body_email req) (body_password req))
     (validationResult_post req w),
   w).
Proof.
  intros H. unfold post_users_handler. rewrite run_bind. cbn [runState get MonadState_state fst snd].
  cbv zeta. now rewrite (isEmpty_false _ H).
Qed.

Lemma post_handler_saves (req : Request) (w : World) :
  validationResult_post req w = [] ->
  runState (post_users_handler req) w =
  (let hash := hashWithSalt (fieldText (body_password req)) 10
                 (fst (genSalt (entropy w))) in
   let (saved, stored) :=
     User_save (User_new (body_name req) (body_email req) hash) (db w) in
   (redirect (userUrl saved),
    mkWorld stored (disk w) (snd (genSalt (entropy w)))
      ((if hasDialogMessage req
        then [setMessage "You have signed up successfully"] else [])
       ++ (if hasAuthentication req then [login saved] else [])
       ++ userSave saved
       :: bcryptHash (fieldText (body_password req)) 10
       :: journal w))).
Proof.
  intros H. unfold post_users_handler. rewrite run_bind. cbn [runState get MonadState_state fst snd].
  cbv zeta. rewrite H. cbn [isEmpty negb].
  rewrite run_bind, generate_run. cbn [saltRounds newHashPassword].
  cbn. destruct (User_save _ _) as [saved stored].
  destruct (hasAuthentication req), (hasDialogMessage req); reflexivity.
Qed.

Lemma validationResult_post_clean (req : Request) (w : World) :
  fieldText (body_name req) <> "" ->
  fieldText (body_email req) <> "" ->
  fieldText (body_password req) <> "" ->
  isUniqueEmail (body_email req) (db w) = None ->
  validationResult_post req w = [].
Proof.
  intros Hname Hemail Hpassword Hunique. unfold validationResult_post.
  rewrite (notEmpty_filled _ _ _ Hname), (notEmpty_filled _ _ _ Hemail),
          (notEmpty_filled _ _ _ Hpassword), Hunique.
  reflexivity.
Qed.

(** X8.  A signup with any validation error shows the signup form again
    with every error of the request and the submitted values, and leaves
    the world as it was: nothing is hashed, saved or logged in. *)
Theorem invalid_signup_changes_nothing (req : Request) (w : World) :
  forbidAuthUser req = None ->
  validationResult_post req w <> [] ->
  runState (post_users req) w =
  (render "users/new"
     (newUserForm (body_name req) (body_email req) (body_password req))
     (validationResult_post req w),
   w).
Proof.
  intros Hguard Herr. unfold post_users. rewrite Hguard.
  now apply post_handler_rerenders.
Qed.

(** X9.  When the uniqueness check turns the email down, the signup form
    is shown again, the check's message comes last among the errors as an
    error of the field email, and no user is saved and no password
    hashed, whatever the other fields hold. *)
Theorem taken_email_is_reported_and_nothing_saved
  (req : Request) (w : World) (message : string) :
  forbidAuthUser req = None ->
  isUniqueEmail (body_email req) (db w) = Some message ->
  exists others : list ValidationError,
    runState (post_users req) w =
    (render "users/new"
       (newUserForm (body_name req) (body_email req) (body_password req))
       (others ++
        [{| param := "email";
            msg := message;
            location := "body";
            value := ofField (body_email req) |}]),
     w).
Proof.
  intros Hguard Htaken.
  exists (notEmpty "name" "Name can't be blank" (body_name req)
          ++ notEmpty "email" "Email can't be blank" (body_email req)
          ++ notEmpty "password" "Password can't be blank" (body_password req))%list.
  assert (E : validationResult_post req w =
              ((notEmpty "name" "Name can't be blank" (body_name req)
                ++ notEmpty "email" "Email can't be blank" (body_email req)
                ++ notEmpty "password" "Password can't be blank"
                     (body_password req))
               ++ [mkValidationError "email" message "body"
                     (ofField (body_email req))])%list).
  { unfold validationResult_post. rewrite Htaken. cbn [custom].
    now rewrite <- !app_assoc. }
  rewrite <- E. unfold post_users. rewrite Hguard.
  apply post_handler_rerenders.
  rewrite E. intros H. apply app_eq_nil in H. now destruct H.
Qed.

(** X10.  A signup that passes validation hashes the submitted password
    once, at cost 10, saves the user built from the name, the email and
    that hash, logs the user in and sets the welcome message where the
    request allows it, and redirects to the saved user's page.  The saved
    hash verifies against the submitted password. *)
Theorem valid_signup_saves_the_hashed_password (req : Request) (w : World) :
  forbidAuthUser req = None ->
  fieldText (body_name req) <> "" ->
  fieldText (body_email req) <> "" ->
  fieldText (body_password req) <> "" ->
  isUniqueEmail (body_email req) (db w) = None ->
  let plain := fieldText (body_password req) in
  let hash := hashWithSalt plain 10 (fst (genSalt (entropy w))) in
  let saved :=
    fst (User_save (User_new (body_name req) (body_email req) hash) (db w)) in
  let after := execState (post_users req) w in
  evalState (post_users req) w = redirect (userUrl saved) /\
  db after =
    snd (User_save (User_new (body_name req) (body_email req) hash) (db w)) /\
  journal after =
    ((if hasDialogMessage req
      then [setMessage "You have signed up successfully"] else [])
     ++ (if hasAuthentication req then [login saved] else [])
     ++ userSave saved :: bcryptHash plain 10 :: journal w)%list /\
  disk after = disk w /\
  compare newHashPassword plain hash = Some true.
Proof.
  intros Hguard Hname Hemail Hpassword Hunique. cbv zeta.
  pose proof (validationResult_post_clean _ _ Hname Hemail Hpassword Hunique)
    as Hclean.
  unfold evalState, execState, post_users. rewrite Hguard.
  rewrite (post_handler_saves _ _ Hclean). cbv zeta.
  destruct (User_save _ _) as [saved stored]. cbn [fst snd db journal disk].
  repeat split.
  rewrite compare_hashWithSalt. now rewrite String.eqb_refl.
Qed.

(** *** Guards and storage *)

(** The guards come first: when a guard answers a request itself,
    the endpoint ends with that answer and has touched nothing.  For a
    profile update this includes the upload, so a request that a guard
    turns away writes no file, acceptable image or not. *)
Lemma guards_come_before_everything_else (req : Request) (w : World) :
  (forall answer : Response,
     forbidAuthUser req = Some answer ->
     runState (post_users req) w = (answer, w)) /\
  (forall answer : Response,
     ensureAuthUser req = Some answer ->
     runState (patch_user req) w = (answer, w)) /\
  (forall answer : Response,
     ensureAuthUser req = None ->
     ensureCorrectUser req = Some answer ->
     runState (patch_user req) w = (answer, w)).
Proof.
  unfold post_users, patch_user. repeat split.
  - intros answer ->. reflexivity.
  - intros answer ->. reflexivity.
  - intros answer -> ->. reflexivity.
Qed.

Lemma post_users_keeps_disk (req : Request) (w : World) :
  disk (execState (post_users req) w) = disk w.
Proof.
  unfold execState, post_users.
  destruct (forbidAuthUser req); [reflexivity|].
  destruct (validationResult_post req w) as [|e errors] eqn:E.
  - rewrite (post_handler_saves _ _ E). cbv zeta.
    now destruct (User_save _ _).
  - rewrite post_handler_rerenders; [reflexivity | now rewrite E].
Qed.

(** *** When a form comes back *)

Lemma fieldText_blank_or_filled (v : field) :
  fieldText v = "" \/ fieldText v <> "".
Proof. destruct (String.eqb_spec (fieldText v) ""); [now left | now right]. Qed.

(** X13.  A signup that the guard lets through ends with the signup form
    exactly when the name, the email or the password is empty or the
    uniqueness check turns the email down. *)
Theorem signup_form_comes_back_iff (req : Request) (w : World) :
  forbidAuthUser req = None ->
  ((exists errors : list ValidationError,
      evalState (post_users req) w =
      render "users/new"
        (newUserForm (body_name req) (body_email req) (body_password req))
        errors) <->
   fieldText (body_name req) = "" \/
   fieldText (body_email req) = "" \/
   fieldText (body_password req) = "" \/
   isUniqueEmail (body_email req) (db w) <> None).
Proof.
  intros Hguard. unfold evalState, post_users. rewrite Hguard. split.
  - intros (errors & Hrender).
    destruct (fieldText_blank_or_filled (body_name req)) as [Hname|Hname];
      [now left|].
    destruct (fieldText_blank_or_filled (body_email req)) as [Hemail|Hemail];
      [now right; left|].
    destruct (fieldText_blank_or_filled (body_password req))
      as [Hpassword|Hpassword]; [now right; right; left|].
    right. right. right. intros Hunique. revert Hrender.
    rewrite (post_handler_saves _ _
               (validationResult_post_clean _ _ Hname Hemail Hpassword Hunique)).
    cbv zeta. now destruct (User_save _ _).
  - intros Hwhy. rewrite post_handler_rerenders; [cbn [fst]; now eexists|].
    unfold validationResult_post, notEmpty, custom.
    destruct Hwhy as [H|[H|[H|H]]].
    + rewrite H. discriminate.
    + rewrite H. cbn [String.eqb].
      destruct (fieldText (body_name req) =? ""); discriminate.
    + rewrite H. cbn [String.eqb].
      destruct (fieldText (body_name req) =? "");
        destruct (fieldText (body_email req) =? ""); discriminate.
    + destruct (isUniqueEmail (body_email req) (db w)); [|easy].
      destruct (fieldText (body_name req) =? "");
        destruct (fieldText (body_email req) =? "");
        destruct (fieldText (body_password req) =? ""); discriminate.
Qed.

(** *** Pages *)

(** X14.  For a user the model does not find, the profile page and the
    likes page hand on the error "Invalid error: The user is undefined."
    and render nothing, while the edit endpoint, which has no such check,
    calls the edit template all the same, with no user and no errors. *)
Theorem pages_of_a_missing_user (req : Request) (w : World) :
  ensureAuthUser req = None ->
  ensureCorrectUser req = None ->
  User_find (Number (params_userId req)) (db w) = None ->
  runState (get_user req) w =
    (nextPage (Js.mkError "Invalid error: The user is undefined."), w) /\
  runState (get_user_likes req) w =
    (nextPage (Js.mkError "Invalid error: The user is undefined."), w) /\
  runState (get_user_edit req) w =
    (renderPage "users/edit" (userEdit None []), w).
Proof.
  intros Hauth Hcorrect Hfind.
  unfold get_user, get_user_likes, get_user_edit. rewrite Hauth, Hcorrect.
  unfold get_user_handler, get_user_likes_handler, get_user_edit_handler.
  cbn. rewrite Hfind. repeat split.
Qed.

(** X15.  For a user the model finds, the profile page and the likes page
    show one entry for each of the user's posts, respectively liked
    posts, in the model's order, each with the user its post names; the
    two pages differ in nothing else but the active tab. *)
Theorem pages_of_a_user_list_every_post
  (req : Request) (w : World) (user : User number) :
  ensureAuthUser req = None ->
  User_find (Number (params_userId req)) (db w) = Some user ->
  exists shown liked : list PostWithUser,
    runState (get_user req) w =
      (renderPage "users/show" (userShow user shown "posts"), w) /\
    runState (get_user_likes req) w =
      (renderPage "users/show" (userShow user liked "likes"), w) /\
    List.map post shown = User_posts user (db w) /\
    List.map post liked = User_likedPosts user (db w) /\
    (forall entry : PostWithUser,
       In entry (shown ++ liked) ->
       postUser entry = Post_user (post entry) (db w)).
Proof.
  intros Hauth Hfind.
  exists (withUser (User_posts user (db w)) (db w)),
         (withUser (User_likedPosts user (db w)) (db w)).
  unfold get_user, get_user_likes. rewrite Hauth.
  unfold get_user_handler, get_user_likes_handler. cbn. rewrite Hfind.
  unfold withUser. rewrite !map_map. cbn [post]. rewrite !map_id.
  repeat split.
  intros entry Hin. apply in_app_or in Hin.
  destruct Hin as [Hin|Hin]; apply in_map_iff in Hin;
    destruct Hin as (p0 & <- & _); reflexivity.
Qed.

(** *** Profile updates as they are sent *)

Lemma untilFile_parts (sent : list Part) :
  match untilFile sent with
  | (before, None) => textFields sent = before /\ fileParts sent = []
  | (before, Some (fieldName, part, rest)) =>
      textFields sent = (before ++ textFields rest)%list /\
      fileParts sent = (fieldName, part) :: fileParts rest
  end.
Proof.
  induction sent as [|[key value|fieldName part] rest IH]; cbn.
  - now split.
  - destruct (untilFile rest) as [before [[[n f] more]|]];
      destruct IH as (-> & ->); now split.
  - now split.
Qed.



(** The upload step when the first file part is turned down. *)
Lemma uploadHandler_parts_stops
  (m : MultipartRequest) (w : World) (before : list (string * string))
  (fieldName : string) (part : IncomingFile) (rest : list Part)
  (err : Js.Error) :
  untilFile (multipart_parts m) = (before, Some (fieldName, part, rest)) ->
  wrappedFileFilter "image" fieldName part = Reject err ->
  runState (uploadHandler_parts m) w =
  ((before,
    mkUpload None
      (Some (mkValidationError "image" (Js.message err) "body" undefined))),
   w).
Proof.
  intros Hsent Hfilter. unfold uploadHandler_parts, multer_single.
  rewrite run_bind, Hsent, Hfilter. reflexivity.
Qed.

(** The upload step when the first file part is accepted. *)
Lemma uploadHandler_parts_stores
  (m : MultipartRequest) (w : World) (before : list (string * string))
  (part : IncomingFile) (rest : list Part) (subtype : string) :
  untilFile (multipart_parts m) = (before, Some ("image", part, rest)) ->
  toAcceptableImageMediaType (mimetype part) = Some ("image", subtype) ->
  runState (uploadHandler_parts m) w =
  (((before ++ textFields rest)%list,
    mkUpload
      (Some (mkStoredFile (originalname part) (mimetype part)
               "public/image/users"
               (fst (nanoid (entropy w)) ++ "." ++ subtype)
               ("public/image/users/" ++ fst (nanoid (entropy w)) ++ "." ++ subtype)))
      None),
   mkWorld (db w)
     (("public/image/users/" ++ fst (nanoid (entropy w)) ++ "." ++ subtype,
       content part) :: disk w)
     (snd (nanoid (entropy w))) (journal w)).
Proof.
  intros Hsent Hacc. unfold uploadHandler_parts, multer_single.
  rewrite run_bind, Hsent. unfold wrappedFileFilter. cbn [String.eqb Ascii.eqb Bool.eqb].
  assert (Hfilter : fileFilter part = Accept)
    by (apply fileFilter_Accept; now rewrite Hacc).
  rewrite Hfilter, run_bind, storage_filename_run.
  apply toAcceptable_Some in Hacc. destruct Hacc as (_ & -> & _).
  reflexivity.
Qed.

(** The upload step when no file part was sent. *)
Lemma uploadHandler_parts_no_file
  (m : MultipartRequest) (w : World) (before : list (string * string)) :
  untilFile (multipart_parts m) = (before, None) ->
  runState (uploadHandler_parts m) w = ((before, mkUpload None None), w).
Proof.
  intros Hsent. unfold uploadHandler_parts, multer_single.
  rewrite run_bind, Hsent. reflexivity.
Qed.

Lemma patch_user_parts_run (m : MultipartRequest) (w : World) :
  runState (patch_user_parts m) w =
  (let (read, w') := runState (uploadHandler_parts m) w in
   runState (patch_user_handler (asRequest m (fst read)) (snd read)) w').
Proof.
  unfold patch_user_parts. rewrite run_bind.
  destruct (runState (uploadHandler_parts m) w) as [[fields up] w'].
  reflexivity.
Qed.

(** A body that sends its text fields first and its one file, if any, as
    image is handled as [patch_user] handles the request with those fields
    and that file. *)
Lemma fields_first_bodies_agree
  (m : MultipartRequest) (w : World) (stop : option IncomingFile) :
  ensureAuthUser (asRequest m (textFields (multipart_parts m))) = None ->
  ensureCorrectUser (asRequest m (textFields (multipart_parts m))) = None ->
  untilFile (multipart_parts m) =
    (textFields (multipart_parts m),
     option_map (fun part => ("image", part, [])) stop) ->
  runState (patch_user_parts m) w =
  runState (patch_user (asRequest m (textFields (multipart_parts m)))) w.
Proof.
  intros Hauth Hcorrect Hsent.
  rewrite (patch_user_run _ w Hauth Hcorrect), patch_user_parts_run.
  pose proof (untilFile_parts (multipart_parts m)) as Hparts.
  rewrite Hsent in Hparts.
  destruct stop as [part|]; cbn [option_map] in *.
  - destruct Hparts as (_ & Hfiles).
    assert (Hpart : parts (asRequest m (textFields (multipart_parts m))) "image"
                    = Some part).
    { cbn. now rewrite Hfiles. }
    destruct (toAcceptableImageMediaType (mimetype part)) as [p|] eqn:E.
    + destruct (toAcceptable_shape _ _ E) as (subtype & ->).
      rewrite (uploadHandler_parts_stores _ w _ _ _ _ Hsent E),
              (uploadHandler_accepted _ _ _ w Hpart E).
      cbn [fst snd textFields]. now rewrite app_nil_r.
    + rewrite (uploadHandler_parts_stops _ w _ _ _ _ _ Hsent
                 (fileFilter_Reject _ E)),
              (uploadHandler_rejected _ _ w Hpart E).
      reflexivity.
  - destruct Hparts as (_ & Hfiles).
    assert (Hpart : parts (asRequest m (textFields (multipart_parts m))) "image"
                    = None).
    { cbn. now rewrite Hfiles. }
    rewrite (uploadHandler_parts_no_file _ w _ Hsent),
            (uploadHandler_no_file _ w Hpart).
    reflexivity.
Qed.


(** X2.  For a body of plain fields with at most one file part, the upload
    step never
    leaves both a stored file and an upload error on the request.  It
    leaves the error exactly when the file part was sent under another
    field than image or the filter rejected it; then nothing was written,
    the message is "Unexpected field", respectively the filter's, and the
    error's value is undefined.  It leaves a file exactly when the file
    part was sent as image and accepted. *)
Theorem single_file_upload_leaves_a_file_or_an_error
  (m : MultipartRequest) (w : World) :
  List.length (fileParts (multipart_parts m)) <= 1 ->
  plainFields (textFields (multipart_parts m)) ->
  let up := snd (evalState (uploadHandler_parts m) w) in
  let after := execState (uploadHandler_parts m) w in
  (file up = None \/ uploadError up = None) /\
  (uploadError up <> None <->
   exists (fieldName : string) (part : IncomingFile),
     In (fieldName, part) (fileParts (multipart_parts m)) /\
     (fieldName <> "image" \/
      toAcceptableImageMediaType (mimetype part) = None)) /\
  (uploadError up <> None ->
   after = w /\
   exists message : string,
     (message = "Unexpected field" \/
      message = "Only image files in png or jpeg format can be uploaded") /\
     uploadError up =
     Some {| param := "image";
             msg := message;
             location := "body";
             value := undefined |}) /\
  (file up <> None <->
   exists part : IncomingFile,
     In ("image", part) (fileParts (multipart_parts m)) /\
     toAcceptableImageMediaType (mimetype part) <> None).
Proof.
  intros Hone _ up after. subst up after. unfold evalState, execState.
  pose proof (untilFile_parts (multipart_parts m)) as Hparts.
  destruct (untilFile (multipart_parts m))
    as [before [[[fieldName part] rest]|]] eqn:Hsent.
  - destruct Hparts as (_ & Hfiles). rewrite Hfiles in *.
    assert (Hrest : fileParts rest = []).
    { destruct (fileParts rest); [reflexivity | cbn in Hone; lia]. }
    rewrite Hrest. clear Hone Hfiles Hrest.
    destruct (String.eqb_spec fieldName "image") as [->|Hother].
    + destruct (toAcceptableImageMediaType (mimetype part)) as [p|] eqn:Hacc.
      * destruct (toAcceptable_shape _ _ Hacc) as (subtype & ->).
        rewrite (uploadHandler_parts_stores _ w _ _ _ _ Hsent Hacc).
        cbn [fst snd file uploadError].
        split; [now right|]. split; [|split; [easy|]].
        -- split; [easy|]. intros (n & f & [E|[]] & [Hn|Hf]).
           ++ inversion E. congruence.
           ++ inversion E. subst. congruence.
        -- split; [|easy]. intros _. exists part. split; [now left|congruence].
      * rewrite (uploadHandler_parts_stops _ w _ _ _ _ _ Hsent
                   (fileFilter_Reject _ Hacc)).
        cbn [fst snd file uploadError Js.message].
        split; [now left|]. split; [|split].
        -- split; [|easy]. intros _. exists "image", part.
           split; [now left | now right].
        -- intros _. split; [reflexivity|].
           eexists. split; [now right | reflexivity].
        -- split; [easy|]. intros (f & [E|[]] & Hf).
           inversion E. subst. congruence.
    + assert (Hfilter : wrappedFileFilter "image" fieldName part =
                        Reject (Js.mkError "Unexpected field")).
      { unfold wrappedFileFilter.
        now destruct (String.eqb_spec fieldName "image"). }
      rewrite (uploadHandler_parts_stops _ w _ _ _ _ _ Hsent Hfilter).
      cbn [fst snd file uploadError Js.message].
      split; [now left|]. split; [|split].
      * split; [|easy]. intros _. exists fieldName, part.
        split; [now left | now left].
      * intros _. split; [reflexivity|].
        eexists. split; [now left | reflexivity].
      * split; [easy|]. intros (f & [E|[]] & _). inversion E. congruence.
  - destruct Hparts as (_ & Hfiles). rewrite Hfiles.
    rewrite (uploadHandler_parts_no_file _ w _ Hsent).
    cbn [fst snd file uploadError].
    split; [now left|]. split; [|split; [easy|]].
    + split; [easy|]. now intros (n & f & [] & _).
    + split; [easy|]. now intros (f & [] & _).
Qed.

(** What a profile update does to the disk: nothing, or the one write of
    the accepted image. *)
Lemma patch_user_parts_disk (m : MultipartRequest) (w : World) :
  List.length (fileParts (multipart_parts m)) <= 1 ->
  disk (execState (patch_user_parts m) w) = disk w \/
  exists (part : IncomingFile) (subtype : string),
    In ("image", part) (fileParts (multipart_parts m)) /\
    In subtype ACCEPTABLE_SUBTYPES /\
    disk (execState (patch_user_parts m) w) =
    ("public/image/users/" ++ fst (nanoid (entropy w)) ++ "." ++ subtype,
     content part) :: disk w.
Proof.
  intros _. unfold execState. rewrite patch_user_parts_run.
  pose proof (untilFile_parts (multipart_parts m)) as Hparts.
  destruct (untilFile (multipart_parts m))
    as [before [[[fieldName part] rest]|]] eqn:Hsent.
  - destruct Hparts as (_ & Hfiles).
    destruct (wrappedFileFilter "image" fieldName part) as [err|] eqn:Hfilter.
    + left. rewrite (uploadHandler_parts_stops _ w _ _ _ _ _ Hsent Hfilter).
      cbv beta iota. exact (proj1 (patch_handler_keeps_disk _ _ _)).
    + unfold wrappedFileFilter in Hfilter.
      destruct (String.eqb_spec fieldName "image") as [->|_]; [|discriminate].
      apply fileFilter_Accept in Hfilter.
      destruct (toAcceptableImageMediaType (mimetype part)) as [p|] eqn:Hacc;
        [clear Hfilter | easy].
      destruct (toAcceptable_shape _ _ Hacc) as (subtype & ->).
      right. exists part, subtype.
      split; [rewrite Hfiles; now left|].
      split; [now apply toAcceptable_Some in Hacc|].
      rewrite (uploadHandler_parts_stores _ w _ _ _ _ Hsent Hacc).
      cbv beta iota. exact (proj1 (patch_handler_keeps_disk _ _ _)).
  - left. rewrite (uploadHandler_parts_no_file _ w _ Hsent).
    cbv beta iota. exact (proj1 (patch_handler_keeps_disk _ _ _)).
Qed.

(** X11.  As long as the name generated for an upload is not in use, no
    endpoint removes or replaces a stored file: a signup does not touch
    the disk, and after a profile update with at most one file part every
    path that could be read before reads as before. *)
Theorem stored_files_stay_readable
  (req : Request) (m : MultipartRequest) (w : World) (p bytes : string) :
  List.length (fileParts (multipart_parts m)) <= 1 ->
  (forall subtype : string,
     In subtype ACCEPTABLE_SUBTYPES ->
     readFile ("public/image/users/" ++ fst (nanoid (entropy w)) ++ "."
               ++ subtype) (disk w) = None) ->
  readFile p (disk w) = Some bytes ->
  disk (execState (post_users req) w) = disk w /\
  readFile p (disk (execState (patch_user_parts m) w)) = Some bytes.
Proof.
  intros Hone Hfresh Hread. split; [apply post_users_keeps_disk|].
  destruct (patch_user_parts_disk _ w Hone)
    as [->|(part & subtype & _ & Hsub & ->)]; [exact Hread|].
  unfold readFile in *. cbn [List.find fst].
  destruct (String.eqb_spec
              ("public/image/users/" ++ fst (nanoid (entropy w)) ++ "." ++ subtype) p)
    as [E|_]; [|exact Hread].
  exfalso. specialize (Hfresh subtype Hsub). rewrite E in Hfresh.
  unfold readFile in Hfresh. rewrite Hfresh in Hread. discriminate.
Qed.

(** X12.  A profile update with at most one file part ends with the edit
    form exactly when the name is empty, the email is empty, or the file
    part was sent under another field than image or is rejected by the
    filter. *)
Theorem edit_form_comes_back_exactly_when
  (m : MultipartRequest) (w : World) :
  List.length (fileParts (multipart_parts m)) <= 1 ->
  plainFields (textFields (multipart_parts m)) ->
  ((exists (user : FormUser) (errors : list ValidationError),
      evalState (patch_user_parts m) w = render "users/edit" user errors) <->
   fieldText (bodyField "name" (textFields (multipart_parts m))) = "" \/
   fieldText (bodyField "email" (textFields (multipart_parts m))) = "" \/
   exists (fieldName : string) (part : IncomingFile),
     In (fieldName, part) (fileParts (multipart_parts m)) /\
     (fieldName <> "image" \/
      toAcceptableImageMediaType (mimetype part) = None)).
Proof.
  intros Hone _. unfold evalState. rewrite patch_user_parts_run.
  pose proof (untilFile_parts (multipart_parts m)) as Hparts.
  assert (Hgoes : forall (fields : list (string * string)) (up : Upload)
                         (w' : World),
             fields = textFields (multipart_parts m) ->
             uploadError up = None ->
             ((exists user errors,
                 fst (runState (patch_user_handler (asRequest m fields) up) w')
                 = render "users/edit" user errors) <->
              fieldText (bodyField "name" fields) = "" \/
              fieldText (bodyField "email" fields) = "")).
  { intros fields up w' _ Hnoerr. split.
    - intros (user & errors & Hrender).
      destruct (fieldText_blank_or_filled (bodyField "name" fields))
        as [Hname|Hname]; [now left|].
      destruct (fieldText_blank_or_filled (bodyField "email" fields))
        as [Hemail|Hemail]; [now right|].
      exfalso. rewrite patch_handler_goes_on in Hrender;
        [|exact Hname|exact Hemail|exact Hnoerr].
      now destruct (User_find _ _).
    - intros Hblank. rewrite patch_handler_rerenders.
      + cbn [fst]. now do 2 eexists.
      + left. now apply validationResult_patch_blank. }
  destruct (untilFile (multipart_parts m))
    as [before [[[fieldName part] rest]|]] eqn:Hsent.
  - destruct Hparts as (Hfields & Hfiles). rewrite Hfiles in *.
    assert (Hrest : fileParts rest = []).
    { destruct (fileParts rest); [reflexivity | cbn in Hone; lia]. }
    rewrite Hrest. clear Hone Hfiles Hrest.
    destruct (wrappedFileFilter "image" fieldName part) as [err|] eqn:Hfilter.
    + rewrite (uploadHandler_parts_stops _ w _ _ _ _ _ Hsent Hfilter).
      cbn [fst snd]. split.
      * intros _. right. right. exists fieldName, part. split; [now left|].
        unfold wrappedFileFilter in Hfilter.
        destruct (String.eqb_spec fieldName "image") as [->|Hother];
          [|now left].
        right. destruct (toAcceptableImageMediaType (mimetype part)) eqn:Hacc;
          [|reflexivity].
        assert (fileFilter part = Accept)
          by (apply fileFilter_Accept; now rewrite Hacc).
        congruence.
      * intros _. rewrite patch_handler_rerenders.
        -- cbn [fst]. now do 2 eexists.
        -- right. discriminate.
    + unfold wrappedFileFilter in Hfilter.
      destruct (String.eqb_spec fieldName "image") as [->|_]; [|discriminate].
      apply fileFilter_Accept in Hfilter.
      destruct (toAcceptableImageMediaType (mimetype part)) as [p|] eqn:Hacc;
        [clear Hfilter | easy].
      destruct (toAcceptable_shape _ _ Hacc) as (subtype & ->).
      rewrite (uploadHandler_parts_stores _ w _ _ _ _ Hsent Hacc).
      cbn [fst snd]. rewrite <- Hfields.
      rewrite Hgoes; [|reflexivity|reflexivity]. split.
      * intros [H|H]; [now left | now right; left].
      * intros [H|[H|(n & f & [E|[]] & [Hn|Hf])]];
          [now left | now right | |].
        -- inversion E. congruence.
        -- inversion E. subst. congruence.
  - destruct Hparts as (Hfields & Hfiles). rewrite Hfiles.
    rewrite (uploadHandler_parts_no_file _ w _ Hsent).
    cbn [fst snd]. rewrite <- Hfields.
    rewrite Hgoes; [|reflexivity|reflexivity]. split.
    + intros [H|H]; [now left | now right; left].
    + intros [H|[H|(n & f & [] & _)]]; [now left | now right].
Qed.

End Application.

(** ** The sample collaborators at work *)

Lemma append_assoc (a b c : string) : (a ++ b) ++ c = a ++ (b ++ c).
Proof. induction a as [|x a IH]; cbn; [reflexivity | now rewrite IH]. Qed.

Lemma append_empty_r (a : string) : a ++ "" = a.
Proof. induction a as [|x a IH]; cbn; [reflexivity | now rewrite IH]. Qed.

Lemma readTally_tally (n : nat) (rest : string) :
  Sample.readTally (Sample.tally n ++ String "$" rest) = Some (n, rest).
Proof. induction n as [|n IH]; cbn; [reflexivity | now rewrite IH]. Qed.

Lemma readChars_append (s rest : string) :
  Sample.readChars (String.length s) (s ++ rest) = Some (s, rest).
Proof. induction s as [|c s IH]; cbn; [reflexivity | now rewrite IH]. Qed.

Lemma decodeText_encodeText (s rest : string) :
  Sample.decodeText (Sample.encodeText s ++ rest) = Some (s, rest).
Proof.
  unfold Sample.decodeText, Sample.encodeText.
  rewrite append_assoc. cbn [append].
  rewrite readTally_tally. apply readChars_append.
Qed.

(** The sample hash format is self-describing. *)
Lemma sample_parse_format (f : HashFields) :
  Sample.parseHash (Sample.formatHash f) = Some f.
Proof.
  destruct f as [alg rounds na dig].
  unfold Sample.parseHash, Sample.formatHash. cbn [algorithm costFactor salt digest].
  rewrite decodeText_encodeText, readTally_tally, decodeText_encodeText.
  rewrite <- (append_empty_r (Sample.encodeText dig)).
  now rewrite decodeText_encodeText.
Qed.

(** C2 on the sample collaborators: the hash of "hunter2" verifies. *)
Lemma compare_accepts_generated_hash_sample :
  let w := mkWorld Sample.Entropy Sample.number Sample.Db Sample.users [] 0 [] in
  (forall f : HashFields, Sample.parseHash (Sample.formatHash f) = Some f) /\
  compare Sample.digestOf Sample.parseHash newHashPassword "hunter2"
    (evalState
       (generate Sample.Entropy Sample.genSalt Sample.digestOf "2b"
          Sample.formatHash Sample.number Sample.Db newHashPassword "hunter2")
       w) = Some true.
Proof.
  split; [exact sample_parse_format|].
  exact (compare_accepts_generated_hash Sample.Entropy Sample.genSalt
           Sample.digestOf "2b" Sample.formatHash Sample.parseHash
           sample_parse_format Sample.number Sample.Db newHashPassword
           "hunter2"
           (mkWorld Sample.Entropy Sample.number Sample.Db Sample.users [] 0 [])).
Defined.

(** C3 on the sample collaborators: two calls in a row, the second in the
    world the first one left. *)
Lemma fresh_salts_give_distinct_valid_hashes_sample :
  let w1 := mkWorld Sample.Entropy Sample.number Sample.Db Sample.users [] 0 [] in
  let gen := generate Sample.Entropy Sample.genSalt Sample.digestOf "2b"
               Sample.formatHash Sample.number Sample.Db newHashPassword
               "hunter2" in
  let w2 := execState gen w1 in
  fst (Sample.genSalt (entropy _ _ _ w1)) <> fst (Sample.genSalt (entropy _ _ _ w2)) /\
  evalState gen w1 <> evalState gen w2 /\
  compare Sample.digestOf Sample.parseHash newHashPassword "hunter2"
    (evalState gen w1) = Some true /\
  compare Sample.digestOf Sample.parseHash newHashPassword "hunter2"
    (evalState gen w2) = Some true.
Proof.
  cbv zeta.
  assert (Hfresh : fst (Sample.genSalt 0) <> fst (Sample.genSalt 1))
    by discriminate.
  split; [exact Hfresh|].
  exact (fresh_salts_give_distinct_valid_hashes Sample.Entropy Sample.genSalt
           Sample.digestOf "2b" Sample.formatHash Sample.parseHash
           sample_parse_format Sample.number Sample.Db newHashPassword
           "hunter2"
           (mkWorld Sample.Entropy Sample.number Sample.Db Sample.users [] 0 [])
           (mkWorld Sample.Entropy Sample.number Sample.Db Sample.users [] 1
              [bcryptHash Sample.number "hunter2" 10])
           Hfresh).
Defined.


(** C10 on the sample collaborators: image/png/extra. *)
Lemma extra_segments_are_ignored_sample :
  let w := mkWorld Sample.Entropy Sample.number Sample.Db Sample.users [] 0 [] in
  let part := mkIncomingFile "photo.bmp" "image/png/extra" "bytes" in
  Js.occurrences "/" (mimetype part) = 2 /\
  Js.split "/" (mimetype part) = ["image"; "png"; "extra"] /\
  fileFilter part = Accept /\
  toAcceptableImageMediaType (mimetype part) = Some ("image", "png") /\
  evalState
    (storage_filename Sample.Entropy Sample.nanoid Sample.number Sample.Db
       Sample.plainUpdate part) w = "id.png".
Proof.
  cbv zeta. split; [reflexivity|]. split; [reflexivity|].
  exact (extra_segments_are_ignored Sample.Entropy Sample.nanoid
           Sample.number Sample.Db Sample.plainUpdate
           (mkIncomingFile "photo.bmp" "image/png/extra" "bytes") "png"
           (mkWorld Sample.Entropy Sample.number Sample.Db Sample.users [] 0 [])
           ltac:(cbn; lia) eq_refl eq_refl ltac:(cbn; tauto)).
Defined.

(** C6 on the sample collaborators: a profile update that uploads a PDF. *)
Lemma rejected_upload_joins_the_form_errors_sample :
  let w := mkWorld Sample.Entropy Sample.number Sample.Db Sample.users [] 0 [] in
  let outcome := evalState
      (patch_user Sample.Entropy Sample.nanoid Sample.number Sample.Number
         Sample.numberToString Sample.Db Sample.User_find Sample.User_update
         Sample.letThrough Sample.letThrough Sample.pdfUpdate) w in
  toAcceptableImageMediaType "application/pdf" = None /\
  outcome =
  render "users/edit"
    (editUserForm "id" (Some "Ann B.") (Some "ann.b@example.org"))
    [mkValidationError "image"
       "Only image files in png or jpeg format can be uploaded" "body"
       undefined] /\
  (forall err : Js.Error, outcome <> next err).
Proof.
  cbv zeta. split; [reflexivity|].
  exact (rejected_upload_joins_the_form_errors Sample.Entropy Sample.nanoid
           Sample.number Sample.Number Sample.numberToString Sample.Db
           Sample.User_find Sample.User_update Sample.letThrough
           Sample.letThrough Sample.pdfUpdate
           (mkIncomingFile "cv.pdf" "application/pdf" "%PDF")
           (mkWorld Sample.Entropy Sample.number Sample.Db Sample.users [] 0 [])
           eq_refl eq_refl eq_refl eq_refl).
Defined.

(** C7 on the sample collaborators: a signup with the name left empty. *)
Lemma blank_name_rerenders_the_signup_form_sample :
  let w := mkWorld Sample.Entropy Sample.number Sample.Db Sample.users [] 0 [] in
  fieldText (body_name Sample.blankSignup) = "" /\
  exists others : list ValidationError,
    runState
      (post_users Sample.Entropy Sample.genSalt Sample.digestOf "2b"
         Sample.formatHash Sample.number Sample.numberToString Sample.Db
         Sample.User_new Sample.User_save Sample.isUniqueEmail
         Sample.letThrough Sample.blankSignup) w =
    (render "users/new"
       (newUserForm (Some "") (Some "bob@example.org") (Some "hunter2"))
       (mkValidationError "name" "Name can't be blank" "body" (text "")
        :: others),
     w).
Proof.
  cbv zeta. split; [reflexivity|].
  exact (blank_name_rerenders_the_signup_form Sample.Entropy Sample.genSalt
           Sample.digestOf "2b" Sample.formatHash Sample.number
           Sample.numberToString Sample.Db Sample.User_new Sample.User_save
           Sample.isUniqueEmail Sample.letThrough Sample.blankSignup
           (mkWorld Sample.Entropy Sample.number Sample.Db Sample.users [] 0 [])
           eq_refl eq_refl).
Defined.

(** C9 on the sample collaborators: Ann changes her name and email and
    uploads nothing; her image name stays. *)
Lemma update_without_file_keeps_the_image_sample :
  let w := mkWorld Sample.Entropy Sample.number Sample.Db Sample.users [] 0 [] in
  let run := patch_user Sample.Entropy Sample.nanoid Sample.number
               Sample.Number Sample.numberToString Sample.Db Sample.User_find
               Sample.User_update Sample.letThrough Sample.letThrough
               Sample.plainUpdate in
  let updated := mkUser (Some 2) (Some "Ann B.") (Some "ann.b@example.org")
                        "stored hash" "/image/users/ann.png" in
  Sample.User_find (Sample.Number "id") Sample.users = Some Sample.ann /\
  evalState run w = redirect "/users/xx" /\
  db _ _ _ (execState run w) = [updated] /\
  imageName updated = imageName Sample.ann /\
  disk _ _ _ (execState run w) = [].
Proof.
  cbv zeta.
  pose proof (update_without_file_keeps_the_image Sample.Entropy Sample.nanoid
                Sample.number Sample.Number Sample.numberToString Sample.Db
                Sample.User_find Sample.User_update Sample.letThrough
                Sample.letThrough Sample.plainUpdate
                (mkWorld Sample.Entropy Sample.number Sample.Db Sample.users [] 0 [])
                Sample.ann eq_refl eq_refl eq_refl
                ltac:(discriminate) ltac:(discriminate) eq_refl)
    as (Hres & Hdb & _ & Himg & _ & _ & Hdisk).
  split; [reflexivity|]. split; [exact Hres|]. split; [exact Hdb|].
  split; [exact Himg | exact Hdisk].
Defined.

(** The other branches of the two endpoints, run on the sample
    collaborators: an accepted upload is written under the generated name
    and becomes the user's image, and a valid signup hashes the password
    and saves the user. *)
Example png_upload_is_stored_and_becomes_the_image :
  runState
    (patch_user Sample.Entropy Sample.nanoid Sample.number Sample.Number
       Sample.numberToString Sample.Db Sample.User_find Sample.User_update
       Sample.letThrough Sample.letThrough Sample.pngUpdate)
    (mkWorld Sample.Entropy Sample.number Sample.Db Sample.users [] 0 []) =
  let updated := mkUser (Some 2) (Some "Ann B.") (Some "ann.b@example.org")
                        "stored hash" "/image/users/id.png" in
  (redirect "/users/xx",
   mkWorld Sample.Entropy Sample.number Sample.Db
     [updated] [("public/image/users/id.png", "PNG bytes")] 1
     [setMessage Sample.number "Your account has been updated successfully";
      userUpdate Sample.number updated]).
Proof. reflexivity. Qed.

Example valid_signup_hashes_and_saves :
  runState
    (post_users Sample.Entropy Sample.genSalt Sample.digestOf "2b"
       Sample.formatHash Sample.number Sample.numberToString Sample.Db
       Sample.User_new Sample.User_save Sample.isUniqueEmail
       Sample.letThrough Sample.bobSignup)
    (mkWorld Sample.Entropy Sample.number Sample.Db Sample.users [] 0 []) =
  let hash := Sample.formatHash
                (mkHashFields "2b" 10 "na"
                   (Sample.digestOf 10 "na" "hunter2")) in
  let bob := mkUser (Some 1) (Some "Bob") (Some "bob@example.org") hash
                    "/image/users/default_user.jpg" in
  (redirect "/users/x",
   mkWorld Sample.Entropy Sample.number Sample.Db
     [bob; Sample.ann] [] 1
     [setMessage Sample.number "You have signed up successfully";
      login Sample.number bob;
      userSave Sample.number bob;
      bcryptHash Sample.number "hunter2" 10]).
Proof. reflexivity. Qed.

(** ** The further properties on the sample collaborators *)

Local Abbreviation sampleWorld :=
  (mkWorld Sample.Entropy Sample.number Sample.Db Sample.users [] 0 []).

Local Abbreviation sampleUpload :=
  (uploadHandler Sample.Entropy Sample.nanoid Sample.number Sample.Db).

Local Abbreviation samplePatch :=
  (patch_user Sample.Entropy Sample.nanoid Sample.number Sample.Number
     Sample.numberToString Sample.Db Sample.User_find Sample.User_update
     Sample.letThrough Sample.letThrough).

Local Abbreviation samplePost :=
  (post_users Sample.Entropy Sample.genSalt Sample.digestOf "2b"
     Sample.formatHash Sample.number Sample.numberToString Sample.Db
     Sample.User_new Sample.User_save Sample.isUniqueEmail Sample.letThrough).

(** X3 on the sample collaborators: a PNG is written as id.png. *)
Lemma accepted_upload_is_written_under_the_generated_name_sample :
  toAcceptableImageMediaType "image/png" <> None /\
  exists subtype : string,
    In subtype ["png"; "jpeg"] /\
    option_map path (file (evalState (sampleUpload Sample.pngUpdate) sampleWorld))
      = Some ("public/image/users/id." ++ subtype) /\
    uploadError (evalState (sampleUpload Sample.pngUpdate) sampleWorld) = None /\
    disk _ _ _ (execState (sampleUpload Sample.pngUpdate) sampleWorld)
      = [("public/image/users/id." ++ subtype, "PNG bytes")] /\
    db _ _ _ (execState (sampleUpload Sample.pngUpdate) sampleWorld)
      = Sample.users /\
    journal _ _ _ (execState (sampleUpload Sample.pngUpdate) sampleWorld) = [] /\
    entropy _ _ _ (execState (sampleUpload Sample.pngUpdate) sampleWorld) = 1.
Proof.
  split; [discriminate|].
  exact (accepted_upload_is_written_under_the_generated_name
           Sample.Entropy Sample.nanoid Sample.number Sample.Db
           Sample.pngUpdate (mkIncomingFile "me.png" "image/png" "PNG bytes")
           sampleWorld eq_refl ltac:(discriminate)).
Defined.

(** X4 on the sample collaborators: the declared type image, no slash. *)
Lemma filename_without_subtype_ends_in_undefined_sample :
  Js.occurrences "/" "image" = 0 /\
  evalState
    (storage_filename Sample.Entropy Sample.nanoid Sample.number Sample.Db
       Sample.plainUpdate (mkIncomingFile "me" "image" "bytes")) sampleWorld
    = "id.undefined" /\
  fileFilter (mkIncomingFile "me" "image" "bytes") =
    Reject (Js.mkError onlyImagesMessage).
Proof.
  split; [reflexivity|].
  exact (filename_without_subtype_ends_in_undefined
           Sample.Entropy Sample.nanoid Sample.number Sample.Db
           Sample.plainUpdate (mkIncomingFile "me" "image" "bytes")
           sampleWorld eq_refl).
Defined.

(** X5 on the sample collaborators: Ann uploads a PNG with her new name. *)
Lemma accepted_image_becomes_the_users_image_sample :
  Sample.User_find (Sample.Number "id") Sample.users = Some Sample.ann /\
  exists subtype : string,
    In subtype ["png"; "jpeg"] /\
    evalState (samplePatch Sample.pngUpdate) sampleWorld =
      redirect
        (userUrl Sample.number Sample.numberToString
           (mkUser (Some 2) (Some "Ann B.") (Some "ann.b@example.org")
              "stored hash" ("/image/users/id." ++ subtype))) /\
    db _ _ _ (execState (samplePatch Sample.pngUpdate) sampleWorld) =
      Sample.User_update
        (mkUser (Some 2) (Some "Ann B.") (Some "ann.b@example.org")
           "stored hash" ("/image/users/id." ++ subtype))
        Sample.users /\
    In (userUpdate Sample.number
          (mkUser (Some 2) (Some "Ann B.") (Some "ann.b@example.org")
             "stored hash" ("/image/users/id." ++ subtype)))
       (journal _ _ _ (execState (samplePatch Sample.pngUpdate) sampleWorld)) /\
    disk _ _ _ (execState (samplePatch Sample.pngUpdate) sampleWorld) =
      [("public/image/users/id." ++ subtype, "PNG bytes")].
Proof.
  split; [reflexivity|].
  exact (accepted_image_becomes_the_users_image
           Sample.Entropy Sample.nanoid Sample.number Sample.Number
           Sample.numberToString Sample.Db Sample.User_find Sample.User_update
           Sample.letThrough Sample.letThrough Sample.pngUpdate
           (mkIncomingFile "me.png" "image/png" "PNG bytes") sampleWorld
           Sample.ann eq_refl eq_refl eq_refl ltac:(discriminate)
           ltac:(discriminate) ltac:(discriminate) eq_refl).
Defined.

(** X6 on the sample collaborators: a PNG with the name left empty. *)
Lemma accepted_image_is_written_even_if_fields_are_blank_sample :
  fieldText (body_name Sample.blankPngUpdate) = "" /\
  exists subtype : string,
    In subtype ["png"; "jpeg"] /\
    evalState (samplePatch Sample.blankPngUpdate) sampleWorld =
      render "users/edit"
        (editUserForm "id" (Some "") (Some "ann.b@example.org"))
        (validationResult_patch Sample.blankPngUpdate) /\
    validationResult_patch Sample.blankPngUpdate <> [] /\
    disk _ _ _ (execState (samplePatch Sample.blankPngUpdate) sampleWorld) =
      [("public/image/users/id." ++ subtype, "PNG bytes")] /\
    db _ _ _ (execState (samplePatch Sample.blankPngUpdate) sampleWorld) =
      Sample.users /\
    journal _ _ _ (execState (samplePatch Sample.blankPngUpdate) sampleWorld) = [].
Proof.
  split; [reflexivity|].
  exact (accepted_image_is_written_even_if_fields_are_blank
           Sample.Entropy Sample.nanoid Sample.number Sample.Number
           Sample.numberToString Sample.Db Sample.User_find Sample.User_update
           Sample.letThrough Sample.letThrough Sample.blankPngUpdate
           (mkIncomingFile "me.png" "image/png" "PNG bytes") sampleWorld
           eq_refl eq_refl eq_refl ltac:(discriminate) (or_introl eq_refl)).
Defined.

(** X7 on the sample collaborators: an update for a user nobody stored. *)
Lemma update_of_a_missing_user_is_an_error_sample :
  Sample.User_find (Sample.Number "nobody") Sample.users = None /\
  evalState (samplePatch Sample.ghostUpdate) sampleWorld =
    next (Js.mkError "Invalid error: The user is undefined.") /\
  db _ _ _ (execState (samplePatch Sample.ghostUpdate) sampleWorld) =
    Sample.users /\
  journal _ _ _ (execState (samplePatch Sample.ghostUpdate) sampleWorld) = [] /\
  disk _ _ _ (execState (samplePatch Sample.ghostUpdate) sampleWorld) = [].
Proof.
  split; [reflexivity|].
  exact (update_of_a_missing_user_is_an_error
           Sample.Entropy Sample.nanoid Sample.number Sample.Number
           Sample.numberToString Sample.Db Sample.User_find Sample.User_update
           Sample.letThrough Sample.letThrough Sample.ghostUpdate sampleWorld
           eq_refl eq_refl
           ltac:(intros part H; discriminate H)
           ltac:(discriminate) ltac:(discriminate) eq_refl).
Defined.

(** X8 on the sample collaborators: a signup with the name left empty. *)
Lemma invalid_signup_changes_nothing_sample :
  validationResult_post Sample.Entropy Sample.number Sample.Db
    Sample.isUniqueEmail Sample.blankSignup sampleWorld <> [] /\
  runState (samplePost Sample.blankSignup) sampleWorld =
  (render "users/new"
     (newUserForm (Some "") (Some "bob@example.org") (Some "hunter2"))
     [mkValidationError "name" "Name can't be blank" "body" (text "")],
   sampleWorld).
Proof.
  split; [discriminate|].
  exact (invalid_signup_changes_nothing
           Sample.Entropy Sample.genSalt Sample.digestOf "2b"
           Sample.formatHash Sample.number Sample.numberToString Sample.Db
           Sample.User_new Sample.User_save Sample.isUniqueEmail
           Sample.letThrough Sample.blankSignup sampleWorld
           eq_refl ltac:(discriminate)).
Defined.

(** X9 on the sample collaborators: a signup with Ann's email. *)
Lemma taken_email_is_reported_and_nothing_saved_sample :
  Sample.isUniqueEmail (Some "ann@example.org") Sample.users =
    Some "Email has already been taken" /\
  exists others : list ValidationError,
    runState (samplePost Sample.takenSignup) sampleWorld =
    (render "users/new"
       (newUserForm (Some "Ann") (Some "ann@example.org") (Some "hunter2"))
       (others ++
        [mkValidationError "email" "Email has already been taken" "body"
           (text "ann@example.org")]),
     sampleWorld).
Proof.
  split; [reflexivity|].
  exact (taken_email_is_reported_and_nothing_saved
           Sample.Entropy Sample.genSalt Sample.digestOf "2b"
           Sample.formatHash Sample.number Sample.numberToString Sample.Db
           Sample.User_new Sample.User_save Sample.isUniqueEmail
           Sample.letThrough Sample.takenSignup sampleWorld
           "Email has already been taken" eq_refl eq_refl).
Defined.

(** X10 on the sample collaborators: Bob signs up. *)
Lemma valid_signup_saves_the_hashed_password_sample :
  let hash := Sample.formatHash
                (mkHashFields "2b" 10 "na"
                   (Sample.digestOf 10 "na" "hunter2")) in
  let bob := mkUser (Some 1) (Some "Bob") (Some "bob@example.org") hash
                    "/image/users/default_user.jpg" in
  Sample.isUniqueEmail (Some "bob@example.org") Sample.users = None /\
  evalState (samplePost Sample.bobSignup) sampleWorld = redirect "/users/x" /\
  db _ _ _ (execState (samplePost Sample.bobSignup) sampleWorld) =
    [bob; Sample.ann] /\
  journal _ _ _ (execState (samplePost Sample.bobSignup) sampleWorld) =
    [setMessage Sample.number "You have signed up successfully";
     login Sample.number bob;
     userSave Sample.number bob;
     bcryptHash Sample.number "hunter2" 10] /\
  disk _ _ _ (execState (samplePost Sample.bobSignup) sampleWorld) = [] /\
  compare Sample.digestOf Sample.parseHash newHashPassword "hunter2" hash =
    Some true.
Proof.
  cbv zeta. split; [reflexivity|].
  exact (valid_signup_saves_the_hashed_password
           Sample.Entropy Sample.genSalt Sample.digestOf "2b"
           Sample.formatHash Sample.parseHash sample_parse_format
           Sample.number Sample.numberToString Sample.Db
           Sample.User_new Sample.User_save Sample.isUniqueEmail
           Sample.letThrough Sample.bobSignup sampleWorld
           eq_refl ltac:(discriminate) ltac:(discriminate)
           ltac:(discriminate) eq_refl).
Defined.

(** X13 on the sample collaborators: the signup with Ann's email. *)
Lemma signup_form_comes_back_iff_sample :
  Sample.letThrough Sample.takenSignup = None /\
  ((exists errors : list ValidationError,
      evalState (samplePost Sample.takenSignup) sampleWorld =
      render "users/new"
        (newUserForm (Some "Ann") (Some "ann@example.org") (Some "hunter2"))
        errors)
   <->
   fieldText (Some "Ann") = "" \/
   fieldText (Some "ann@example.org") = "" \/
   fieldText (Some "hunter2") = "" \/
   Sample.isUniqueEmail (Some "ann@example.org") Sample.users <> None).
Proof.
  split; [reflexivity|].
  exact (signup_form_comes_back_iff
           Sample.Entropy Sample.genSalt Sample.digestOf "2b"
           Sample.formatHash Sample.number Sample.numberToString Sample.Db
           Sample.User_new Sample.User_save Sample.isUniqueEmail
           Sample.letThrough Sample.takenSignup sampleWorld eq_refl).
Defined.

(** X14 on the sample collaborators: the pages of a user nobody stored. *)
Lemma pages_of_a_missing_user_sample :
  Sample.User_find (Sample.Number "nobody") Sample.users = None /\
  runState
    (get_user Sample.Entropy Sample.number Sample.Number Sample.Db
       Sample.User_find Sample.Post Sample.User_posts Sample.Post_user
       Sample.letThrough Sample.ghostUpdate) sampleWorld =
    (nextPage Sample.number Sample.Post
       (Js.mkError "Invalid error: The user is undefined."), sampleWorld) /\
  runState
    (get_user_likes Sample.Entropy Sample.number Sample.Number Sample.Db
       Sample.User_find Sample.Post Sample.User_likedPosts Sample.Post_user
       Sample.letThrough Sample.ghostUpdate) sampleWorld =
    (nextPage Sample.number Sample.Post
       (Js.mkError "Invalid error: The user is undefined."), sampleWorld) /\
  runState
    (get_user_edit Sample.Entropy Sample.number Sample.Number Sample.Db
       Sample.User_find Sample.Post Sample.letThrough Sample.letThrough
       Sample.ghostUpdate) sampleWorld =
    (renderPage Sample.number Sample.Post "users/edit"
       (userEdit Sample.number Sample.Post None []), sampleWorld).
Proof.
  split; [reflexivity|].
  exact (pages_of_a_missing_user
           Sample.Entropy Sample.number Sample.Number Sample.Db
           Sample.User_find Sample.Post Sample.User_posts
           Sample.User_likedPosts Sample.Post_user Sample.letThrough
           Sample.letThrough Sample.ghostUpdate sampleWorld
           eq_refl eq_refl eq_refl).
Defined.

(** X15 on the sample collaborators: Ann's two posts and the one she
    liked. *)
Lemma pages_of_a_user_list_every_post_sample :
  Sample.User_find (Sample.Number "id") Sample.users = Some Sample.ann /\
  exists shown liked : list (PostWithUser Sample.number Sample.Post),
    runState
      (get_user Sample.Entropy Sample.number Sample.Number Sample.Db
         Sample.User_find Sample.Post Sample.User_posts Sample.Post_user
         Sample.letThrough Sample.plainUpdate) sampleWorld =
      (renderPage Sample.number Sample.Post "users/show"
         (userShow Sample.number Sample.Post Sample.ann shown "posts"),
       sampleWorld) /\
    runState
      (get_user_likes Sample.Entropy Sample.number Sample.Number Sample.Db
         Sample.User_find Sample.Post Sample.User_likedPosts Sample.Post_user
         Sample.letThrough Sample.plainUpdate) sampleWorld =
      (renderPage Sample.number Sample.Post "users/show"
         (userShow Sample.number Sample.Post Sample.ann liked "likes"),
       sampleWorld) /\
    List.map (post Sample.number Sample.Post) shown =
      ["first post"; "second post"] /\
    List.map (post Sample.number Sample.Post) liked = ["second post"] /\
    (forall entry : PostWithUser Sample.number Sample.Post,
       In entry (shown ++ liked) ->
       postUser Sample.number Sample.Post entry = Some Sample.ann).
Proof.
  split; [reflexivity|].
  exact (pages_of_a_user_list_every_post
           Sample.Entropy Sample.number Sample.Number Sample.Db
           Sample.User_find Sample.Post Sample.User_posts
           Sample.User_likedPosts Sample.Post_user Sample.letThrough
           Sample.plainUpdate sampleWorld Sample.ann eq_refl eq_refl).
Defined.

(** ** Profile updates as they are sent, on the sample collaborators *)

Lemma sample_fields_are_plain :
  plainFields [("name", "Ann B."); ("email", "ann.b@example.org")].
Proof.
  split.
  - apply NoDup_cons; [cbn; intuition discriminate|].
    apply NoDup_cons; [cbn; tauto | apply NoDup_nil].
  - apply Forall_cons; [|apply Forall_cons; [|apply Forall_nil]];
      cbn [fst snd String.length];
      (split; [reflexivity | split; lia]).
Qed.

Local Abbreviation samplePatchParts :=
  (patch_user_parts Sample.Entropy Sample.nanoid Sample.number Sample.Number
     Sample.numberToString Sample.Db Sample.User_find Sample.User_update).

Local Abbreviation sampleUploadParts :=
  (uploadHandler_parts Sample.Entropy Sample.nanoid Sample.number Sample.Db).



(** X2 on the sample collaborators: a PNG sent under the field avatar. *)
Lemma single_file_upload_leaves_a_file_or_an_error_sample :
  fileParts (multipart_parts Sample.pngAsAvatar) = [("avatar", Sample.png)] /\
  runState (sampleUploadParts Sample.pngAsAvatar) sampleWorld =
    (([("name", "Ann B."); ("email", "ann.b@example.org")],
      mkUpload None
        (Some (mkValidationError "image" "Unexpected field" "body" undefined))),
     sampleWorld) /\
  (uploadError (snd (evalState (sampleUploadParts Sample.pngAsAvatar) sampleWorld))
   <> None <->
   exists (fieldName : string) (part : IncomingFile),
     In (fieldName, part) (fileParts (multipart_parts Sample.pngAsAvatar)) /\
     (fieldName <> "image" \/
      toAcceptableImageMediaType (mimetype part) = None)).
Proof.
  split; [reflexivity|]. split; [reflexivity|].
  assert (Hplain : plainFields (textFields (multipart_parts Sample.pngAsAvatar))).
  { exact sample_fields_are_plain. }
  exact (proj1 (proj2
    (single_file_upload_leaves_a_file_or_an_error
       Sample.Entropy Sample.nanoid Sample.number Sample.Db
       Sample.pngAsAvatar sampleWorld (le_n 1) Hplain))).
Defined.

(** X11 on the sample collaborators: an older image stays readable when
    Ann uploads a new one. *)
Lemma stored_files_stay_readable_sample :
  let w := mkWorld Sample.Entropy Sample.number Sample.Db Sample.users
             [("public/image/users/old.png", "old bytes")] 0 [] in
  readFile "public/image/users/old.png" (disk _ _ _ w) = Some "old bytes" /\
  readFile "public/image/users/id.png" (disk _ _ _ w) = None /\
  disk _ _ _ (execState (samplePost Sample.bobSignup) w) = disk _ _ _ w /\
  readFile "public/image/users/old.png"
    (disk _ _ _ (execState (samplePatchParts Sample.pngLast) w))
    = Some "old bytes".
Proof.
  cbv zeta. split; [reflexivity|]. split; [reflexivity|].
  exact (stored_files_stay_readable
           Sample.Entropy Sample.nanoid Sample.genSalt Sample.digestOf "2b"
           Sample.formatHash Sample.number Sample.Number
           Sample.numberToString Sample.Db Sample.User_new Sample.User_find
           Sample.User_save Sample.User_update Sample.isUniqueEmail
           Sample.letThrough Sample.bobSignup Sample.pngLast
           (mkWorld Sample.Entropy Sample.number Sample.Db Sample.users
              [("public/image/users/old.png", "old bytes")] 0 [])
           "public/image/users/old.png" "old bytes"
           (le_n 1)
           ltac:(intros subtype [<-|[<-|[]]]; reflexivity)
           eq_refl).
Defined.

(** X12 on the sample collaborators: the PNG sent under the field avatar
    brings the form back though name and email are filled in. *)
Lemma edit_form_comes_back_exactly_when_sample :
  plainFields (textFields (multipart_parts Sample.pngAsAvatar)) /\
  ((exists (user : FormUser) (errors : list ValidationError),
      evalState (samplePatchParts Sample.pngAsAvatar) sampleWorld =
      render "users/edit" user errors) <->
   fieldText (Some "Ann B.") = "" \/
   fieldText (Some "ann.b@example.org") = "" \/
   exists (fieldName : string) (part : IncomingFile),
     In (fieldName, part) [("avatar", Sample.png)] /\
     (fieldName <> "image" \/
      toAcceptableImageMediaType (mimetype part) = None)).
Proof.
  assert (Hplain : plainFields (textFields (multipart_parts Sample.pngAsAvatar))).
  { exact sample_fields_are_plain. }
  split; [exact Hplain|].
  exact (edit_form_comes_back_exactly_when
           Sample.Entropy Sample.nanoid Sample.number Sample.Number
           Sample.numberToString Sample.Db Sample.User_find Sample.User_update
           Sample.pngAsAvatar sampleWorld (le_n 1) Hplain).
Defined.
